(** * Cost calculation of the IntelligentSocketDatalogger

    A shallow embedding of [source/cost_calculation.py]: the schedule
    resolver ([check_cost_calc_requested]), the date matcher
    ([last_day_of_month], [check_matched_day]), the configuration readers
    ([check_cost_config], [check_cost_calc_request_time]), the aggregator
    ([cost_calc]) and the dispatcher ([cost_calc_handler]).

    Python integers are [Z].  A Python float is modelled by the rational
    it stands for: the model covers the finite floats and computes on them
    exactly, where Python rounds every result to a binary float and can
    overflow to an infinity.  The statements below are about exceptions,
    calls, keys and bounds, which hold with and without that rounding; the
    numbers of the examples are exact.  Strings are [string], that is
    ASCII text; dictionaries are [gmap]; exceptions are values of [exn],
    threaded with the process state through a state-and-error monad.  The
    collaborators that the module imports ([source.support_functions],
    [source.logging_helper], the configuration file, the clock) appear as
    an environment that is read and a state that records every call. *)

From stdpp Require Import gmap strings list.
From Stdlib Require Import Ascii ZArith QArith Qround Qabs Lia Lqa.

Local Open Scope Z_scope.

(** ** Python run-time model *)

(** The exception classes that the modelled code can raise. *)
Inductive exn : Type :=
| KeyError
| IndexError
| ValueError
| TypeError
| AttributeError
| ZeroDivisionError
| OverflowError
| FileNotFoundError
| UnboundLocalError
| AssertionError.

(** Outcome of evaluating an expression: a value or a raised exception. *)
Inductive result (A : Type) : Type :=
| Ok (a : A)
| Raise (e : exn).
Arguments Ok {A} a.
Arguments Raise {A} e.

#[global] Instance result_ret : MRet result := fun _ a => Ok a.
#[global] Instance result_bind : MBind result := fun _ _ k r =>
  match r with
  | Ok a => k a
  | Raise e => Raise e
  end.

(** ** Calendar: the parts of [datetime] the program uses

    Field ranges, leap years and month lengths follow CPython's
    [_datetimemodule.c].  Microseconds are left out: [strftime] with the
    formats used here drops them, day/month/year shifts keep them, and they
    cancel in the difference of two timestamps that differ by such a
    shift. *)

Record datetime : Type := mk_datetime {
  year : Z;
  month : Z;
  day : Z;
  hour : Z;
  minute : Z;
  second : Z
}.

Definition MINYEAR : Z := 1.
Definition MAXYEAR : Z := 9999.

Definition is_leap (y : Z) : bool :=
  (y mod 4 =? 0) && (negb (y mod 100 =? 0) || (y mod 400 =? 0)).

Definition DAYS_IN_MONTH (m : Z) : Z :=
  match m with
  | 1 => 31 | 2 => 28 | 3 => 31 | 4 => 30 | 5 => 31 | 6 => 30
  | 7 => 31 | 8 => 31 | 9 => 30 | 10 => 31 | 11 => 30 | 12 => 31
  | _ => 0
  end.

Definition DAYS_BEFORE_MONTH (m : Z) : Z :=
  match m with
  | 1 => 0 | 2 => 31 | 3 => 59 | 4 => 90 | 5 => 120 | 6 => 151
  | 7 => 181 | 8 => 212 | 9 => 243 | 10 => 273 | 11 => 304 | 12 => 334
  | _ => 0
  end.

Definition days_in_month (y m : Z) : Z :=
  if (m =? 2) && is_leap y then 29 else DAYS_IN_MONTH m.

Definition days_before_month (y m : Z) : Z :=
  DAYS_BEFORE_MONTH m + (if (2 <? m) && is_leap y then 1 else 0).

Definition days_before_year (y : Z) : Z :=
  let p := y - 1 in p * 365 + p / 4 - p / 100 + p / 400.

(** Proleptic Gregorian ordinal, 0001-01-01 being day 1. *)
Definition ymd_to_ord (y m d : Z) : Z :=
  days_before_year y + days_before_month y m + d.

Definition DI400Y : Z := 146097.
Definition DI100Y : Z := 36524.
Definition DI4Y : Z := 1461.
Definition MAXORDINAL : Z := 3652059.

(** Inverse of [ymd_to_ord]. *)
Definition ord_to_ymd (ordinal : Z) : Z * Z * Z :=
  let n := ordinal - 1 in
  let n400 := n / DI400Y in
  let n := n mod DI400Y in
  let n100 := n / DI100Y in
  let n := n mod DI100Y in
  let n4 := n / DI4Y in
  let n := n mod DI4Y in
  let n1 := n / 365 in
  let n := n mod 365 in
  let y := n400 * 400 + 1 + n100 * 100 + n4 * 4 + n1 in
  if (n1 =? 4) || (n100 =? 4) then (y - 1, 12, 31)
  else
    let leapyear := (n1 =? 3) && (negb (n4 =? 24) || (n100 =? 3)) in
    let m := Z.shiftr (n + 50) 5 in
    let preceding :=
      DAYS_BEFORE_MONTH m + (if (2 <? m) && leapyear then 1 else 0) in
    if n <? preceding then
      let m' := m - 1 in
      let preceding' := preceding - days_in_month y m' in
      (y, m', n - preceding' + 1)
    else (y, m, n - preceding + 1).

(** The checks made by the [datetime] constructor and by [replace]. *)
Definition check_date_fields (y m d : Z) : bool :=
  (MINYEAR <=? y) && (y <=? MAXYEAR) && (1 <=? m) && (m <=? 12)
  && (1 <=? d) && (d <=? days_in_month y m).

Definition check_time_fields (h mi s : Z) : bool :=
  (0 <=? h) && (h <? 24) && (0 <=? mi) && (mi <? 60)
  && (0 <=? s) && (s <? 60).

Definition valid_datetime (dt : datetime) : bool :=
  check_date_fields (year dt) (month dt) (day dt)
  && check_time_fields (hour dt) (minute dt) (second dt).

(** [dt.replace(year=.., month=.., day=..)]: absent arguments keep the
    field; the new combination is validated. *)
Definition replace (y m d : option Z) (dt : datetime) : result datetime :=
  let y' := default (year dt) y in
  let m' := default (month dt) m in
  let d' := default (day dt) d in
  if check_date_fields y' m' d'
  then Ok (mk_datetime y' m' d' (hour dt) (minute dt) (second dt))
  else Raise ValueError.

(** Bringing a day that ran out of its month back into range. *)
Definition normalize_y_m_d (y m d : Z) : result (Z * Z * Z) :=
  let dim := days_in_month y m in
  let in_range '(y', m', d') :=
    if (MINYEAR <=? y') && (y' <=? MAXYEAR)
    then Ok (y', m', d') else Raise OverflowError in
  if (d <? 1) || (dim <? d) then
    if d =? 0 then
      if 0 <? m - 1 then in_range (y, m - 1, days_in_month y (m - 1))
      else in_range (y - 1, 12, 31)
    else if d =? dim + 1 then
      if 12 <? m + 1 then in_range (y + 1, 1, 1)
      else in_range (y, m + 1, 1)
    else
      let ordinal := ymd_to_ord y m 1 + d - 1 in
      if (ordinal <? 1) || (MAXORDINAL <? ordinal) then Raise OverflowError
      else in_range (ord_to_ymd ordinal)
  else in_range (y, m, d).

(** [dt + timedelta(days=n)]. *)
Definition add_days (dt : datetime) (n : Z) : result datetime :=
  '(y, m, d) ← normalize_y_m_d (year dt) (month dt) (day dt + n);
  Ok (mk_datetime y m d (hour dt) (minute dt) (second dt)).

(** [(a - b).total_seconds()], in whole seconds. *)
Definition total_seconds_between (a b : datetime) : Z :=
  (ymd_to_ord (year a) (month a) (day a)
   - ymd_to_ord (year b) (month b) (day b)) * 86400
  + (hour a - hour b) * 3600 + (minute a - minute b) * 60
  + (second a - second b).

(** ** The date matcher *)

(** [last_day_of_month], lines 161-169. *)
Definition last_day_of_month (date : datetime) : result datetime :=
  if month date =? 12 then replace None None (Some 31) date
  else
    first ← replace None (Some (month date + 1)) (Some 1) date;
    add_days first (-1).

(** [check_matched_day], lines 247-262. *)
Definition check_matched_day (current_date : datetime) (target_day : Z)
  : result bool :=
  last_day_of_current_month ← last_day_of_month current_date;
  if day last_day_of_current_month <? target_day then
    if day current_date =? day last_day_of_current_month
    then Ok true else Ok false
  else
    if day current_date =? target_day then Ok true else Ok false.

(** [check_matched_day_and_month], lines 265-279. *)
Definition check_matched_day_and_month
    (current_date : datetime) (target_day target_month : Z) : result bool :=
  matched ← check_matched_day current_date target_day;
  if (matched : bool) then
    if month current_date =? target_month then Ok true else Ok false
  else Ok false.

(** ** Python values, strings and the three schedule patterns *)

(** The values a settings entry or a configuration entry can hold. *)
Inductive pyval : Type :=
| VNone
| VBool (b : bool)
| VInt (z : Z)
| VFloat (q : Q)
| VStr (s : string).

(** Truth value of an object in a condition. *)
Definition truthy (v : pyval) : bool :=
  match v with
  | VNone => false
  | VBool b => b
  | VInt z => negb (z =? 0)
  | VFloat q => negb (Qeq_bool q 0)
  | VStr s => negb (String.eqb s "")
  end.

(** [d[k]] on a dictionary. *)
Definition getitem {K V} `{Countable K} (d : gmap K V) (k : K) : result V :=
  match d !! k with
  | Some v => Ok v
  | None => Raise KeyError
  end.

(** [k in d]. *)
Definition contains {K V} `{Countable K} (d : gmap K V) (k : K) : bool :=
  bool_decide (is_Some (d !! k)).

Definition newline : ascii := Ascii.ascii_of_nat 10.

Definition is_digit (c : ascii) : bool :=
  (48 <=? Ascii.nat_of_ascii c)%nat && (Ascii.nat_of_ascii c <=? 57)%nat.

Definition digit_value (c : ascii) : Z := Z.of_nat (Ascii.nat_of_ascii c) - 48.

Definition in_range_char (lo hi c : ascii) : bool :=
  (Ascii.nat_of_ascii lo <=? Ascii.nat_of_ascii c)%nat
  && (Ascii.nat_of_ascii c <=? Ascii.nat_of_ascii hi)%nat.

(** [$] without [re.MULTILINE]: the end of the string, or just before a
    newline that ends the string. *)
Definition at_dollar (s : string) : bool :=
  match s with
  | EmptyString => true
  | String c EmptyString => Ascii.eqb c newline
  | _ => false
  end.

(** [TIME_OF_DAY_SCHEDULE_MATCH = r"^(?:[01]\d|2[0-3]):(?:[0-5]\d)$"]. *)
Definition TIME_OF_DAY_SCHEDULE_MATCH (s : string) : bool :=
  match s with
  | String h1 (String h2 (String c (String m1 (String m2 rest)))) =>
      ((in_range_char "0" "1" h1 && is_digit h2)
       || (Ascii.eqb h1 "2" && in_range_char "0" "3" h2))
      && Ascii.eqb c ":" && in_range_char "0" "5" m1 && is_digit m2
      && at_dollar rest
  | _ => false
  end.

(** [DAY_OF_MONTH_SCHEDULE_MATCH = r"^[\d]{2}$"]. *)
Definition DAY_OF_MONTH_SCHEDULE_MATCH (s : string) : bool :=
  match s with
  | String a (String b rest) => is_digit a && is_digit b && at_dollar rest
  | _ => false
  end.

(** [DATE_OF_YEAR_SCHEDULE_MATCH = r"^[\d]{2}[.][\d]{2}$"]. *)
Definition DATE_OF_YEAR_SCHEDULE_MATCH (s : string) : bool :=
  match s with
  | String a (String b (String c (String d (String e rest)))) =>
      is_digit a && is_digit b && Ascii.eqb c "." && is_digit d && is_digit e
      && at_dollar rest
  | _ => false
  end.

(** [re.search(pattern, value) is not None]; a value that is not a string
    raises [TypeError]. *)
Definition re_search (pattern : string -> bool) (value : pyval) : result bool :=
  match value with
  | VStr s => Ok (pattern s)
  | _ => Raise TypeError
  end.

(** White space that [int] skips around the digits of an ASCII string:
    tab, line feed, vertical tab, form feed, carriage return and space. *)
Definition is_space (c : ascii) : bool :=
  let n := Ascii.nat_of_ascii c in
  ((9 <=? n)%nat && (n <=? 13)%nat) || (n =? 32)%nat.

Fixpoint lstrip (s : string) : string :=
  match s with
  | String c rest => if is_space c then lstrip rest else s
  | EmptyString => EmptyString
  end.

Fixpoint rstrip (s : string) : string :=
  match s with
  | String c rest =>
      match rstrip rest with
      | EmptyString => if is_space c then EmptyString else String c EmptyString
      | r => String c r
      end
  | EmptyString => EmptyString
  end.

(** Decimal digits, single underscores allowed between digits. *)
Fixpoint parse_digits (acc : Z) (after_digit : bool) (s : string) : option Z :=
  match s with
  | EmptyString => if after_digit then Some acc else None
  | String c rest =>
      if is_digit c then parse_digits (10 * acc + digit_value c) true rest
      else if Ascii.eqb c "_" && after_digit then parse_digits acc false rest
      else None
  end.

(** [int(s)] for a string [s], base 10. *)
Definition py_int (s : string) : result Z :=
  let t := rstrip (lstrip s) in
  let parsed :=
    match t with
    | String "+" rest => parse_digits 0 false rest
    | String "-" rest => Z.opp <$> parse_digits 0 false rest
    | _ => parse_digits 0 false t
    end in
  match parsed with
  | Some z => Ok z
  | None => Raise ValueError
  end.

(** [s.split(sep)] for a one-character separator. *)
Fixpoint split_on (sep : ascii) (s : string) : list string :=
  match s with
  | EmptyString => [EmptyString]
  | String c rest =>
      if Ascii.eqb c sep then EmptyString :: split_on sep rest
      else match split_on sep rest with
           | h :: t => String c h :: t
           | [] => [String c EmptyString]
           end
  end.

(** [l[i]] on a list. *)
Definition list_getitem {A} (l : list A) (i : nat) : result A :=
  match l !! i with
  | Some a => Ok a
  | None => Raise IndexError
  end.

(** [s.replace(old, new)] for one-character [old] and [new]. *)
Fixpoint replace_char (old new : ascii) (s : string) : string :=
  match s with
  | EmptyString => EmptyString
  | String c rest =>
      String (if Ascii.eqb c old then new else c) (replace_char old new rest)
  end.

(** ** The schedule resolver *)

(** [check_month_parameter], lines 172-181. *)
Definition check_month_parameter (month : string) : result Z :=
  checked_month ← py_int month;
  if (checked_month <? 1) || (12 <? checked_month) then Ok 1
  else Ok checked_month.

(** [check_day_parameter], lines 184-195. *)
Definition check_day_parameter (day : string) : result Z :=
  checked_day ← py_int day;
  if (checked_day <? 1) || (31 <? checked_day) then Ok 1
  else Ok checked_day.

(** The dictionary [{"day": .., "month": ..}] of a yearly target. *)
Record year_values : Type := mk_year_values {
  yv_day : Z;
  yv_month : Z
}.

(** [check_year_parameter], lines 198-208. *)
Definition check_year_parameter (day_month : string) : result year_values :=
  let values := mk_year_values 1 1 in
  let split_date := split_on "." day_month in
  m ← (list_getitem split_date 1 ≫= check_month_parameter);
  let values := mk_year_values (yv_day values) m in
  d ← (list_getitem split_date 0 ≫= check_day_parameter);
  let values := mk_year_values d (yv_month values) in
  Ok values.

(** The dictionary returned by [check_cost_calc_requested]. *)
Record requested : Type := mk_requested {
  start_schedule_task : bool;
  cost_day : bool;
  cost_month : option Z;
  cost_year : option year_values
}.

(** [check_cost_calc_requested], lines 211-244. *)
Definition check_cost_calc_requested (settings : gmap string pyval)
  : result requested :=
  let r := mk_requested false false None None in
  r ← (if contains settings "cost_calc_day" then
         v ← getitem settings "cost_calc_day";
         if truthy v
         then Ok (mk_requested (start_schedule_task r || true) true
                               (cost_month r) (cost_year r))
         else Ok r
       else Ok r);
  r ← (if contains settings "cost_calc_month" then
         v ← getitem settings "cost_calc_month";
         found ← re_search DAY_OF_MONTH_SCHEDULE_MATCH v;
         if (found : bool) then
           match v with (* a string, since the pattern was searched in it *)
           | VStr s =>
               m ← check_month_parameter s;
               Ok (mk_requested (start_schedule_task r || true) (cost_day r)
                                (Some m) (cost_year r))
           | _ => Raise TypeError
           end
         else Ok r
       else Ok r);
  r ← (if contains settings "cost_calc_year" then
         v ← getitem settings "cost_calc_year";
         found ← re_search DATE_OF_YEAR_SCHEDULE_MATCH v;
         if (found : bool) then
           match v with
           | VStr s =>
               y ← check_year_parameter s;
               Ok (mk_requested (start_schedule_task r || true) (cost_day r)
                                (cost_month r) (Some y))
           | _ => Raise TypeError
           end
         else Ok r
       else Ok r);
  Ok r.

(** ** Process state, collaborators and the monad of effects *)

(** Keys of [configuration_failed_message_send]: the literal holds two
    strings; the handlers index it with the exception classes. *)
Inductive flag_key : Type :=
| KeyStr (s : string)
| KeyClass (e : exn).

#[global] Instance exn_eq_dec : EqDecision exn.
Proof. solve_decision. Defined.

Definition exn_code (e : exn) : nat :=
  match e with
  | KeyError => 0 | IndexError => 1 | ValueError => 2 | TypeError => 3
  | AttributeError => 4 | ZeroDivisionError => 5 | OverflowError => 6
  | FileNotFoundError => 7 | UnboundLocalError => 8 | AssertionError => 9
  end%nat.

Definition exn_of_code (n : nat) : exn :=
  match n with
  | 0 => KeyError | 1 => IndexError | 2 => ValueError | 3 => TypeError
  | 4 => AttributeError | 5 => ZeroDivisionError | 6 => OverflowError
  | 7 => FileNotFoundError | 8 => UnboundLocalError | _ => AssertionError
  end%nat.

#[global] Instance exn_countable : Countable exn.
Proof.
  apply (inj_countable' exn_code exn_of_code). intros []; reflexivity.
Defined.

#[global] Instance flag_key_eq_dec : EqDecision flag_key.
Proof. solve_decision. Defined.

#[global] Instance flag_key_countable : Countable flag_key.
Proof.
  apply (inj_countable'
           (fun k => match k with KeyStr s => inl s | KeyClass e => inr e end)
           (fun x => match x with inl s => KeyStr s | inr e => KeyClass e end)).
  intros []; reflexivity.
Defined.

(** The two warnings of the configuration readers (the text of the
    f-strings, without the interpolated error). *)
Inductive warning : Type :=
| WarnConfigFileNotFound
| WarnPriceNotANumber.

(** What [open] and [json.load] give for [CONFIGURATION_FILE_PATH]: no
    file, a file that is not JSON ([json.JSONDecodeError], a subclass of
    [ValueError]), or an object whose entries are objects of scalar
    values.  Files of another shape (a "general" entry that is null, a
    number, a text or a list) are outside the model. *)
Inductive config_file : Type :=
| ConfigMissing
| ConfigNotJson
| ConfigData (data : gmap string (gmap string pyval)).

(** One point of [result.get_points()]. *)
Record measurement : Type := mk_measurement {
  fetch_success : bool;
  energy_wh : Q
}.

(** The argument of [sf.fetch_measurements]. *)
Record query : Type := mk_query {
  q_device : string;
  q_target_date : string;
  q_current_date : string
}.

(** The dictionary [data] handed to [sf.cost_logging]. *)
Record cost_data : Type := mk_cost_data {
  start_date : string;
  end_date : string;
  sum_of_energy : Q;
  total_cost : Q;
  cost_kwh : Q;
  error_rate_one : Q;
  error_rate_two : Q
}.

(** What the code reads from outside: the configuration file, the builtin
    [float] on strings ([None] for [ValueError]), the measurement store and
    the successive readings of [datetime.utcnow()]. *)
Record env : Type := mk_env {
  config : config_file;
  float_of_string : string -> option Q;
  fetch_measurements : query -> list measurement;
  utc_clock : nat -> datetime
}.

(** What the code changes: the module-level flags, the log written by
    [lh.write_log], the records given to [sf.cost_logging], the queries
    sent to the store and the number of clock readings. *)
Record world : Type := mk_world {
  configuration_failed_message_send : gmap flag_key bool;
  log : list warning;
  cost_log : list (string * cost_data);
  queries : list query;
  clock_reads : nat
}.

(** Line 21. *)
Definition initial_flags : gmap flag_key bool :=
  {[ KeyStr "FileNotFoundError" := false; KeyStr "ValueError" := false ]}.

Definition initial_world : world := mk_world initial_flags [] [] [] 0.

Definition M (A : Type) : Type := world -> result A * world.

#[global] Instance M_ret : MRet M := fun _ a w => (Ok a, w).
#[global] Instance M_bind : MBind M := fun _ _ k m w =>
  match m w with
  | (Ok a, w') => k a w'
  | (Raise e, w') => (Raise e, w')
  end.

Definition raise {A} (e : exn) : M A := fun w => (Raise e, w).

Definition lift {A} (r : result A) : M A := fun w => (r, w).

(** [try: body except ...: handler]: [handlers e] is the clause that
    catches [e], if any. *)
Definition try_except {A} (body : M A) (handlers : exn -> option (M A)) : M A :=
  fun w =>
    match body w with
    | (Ok a, w') => (Ok a, w')
    | (Raise e, w') =>
        match handlers e with
        | Some h => h w'
        | None => (Raise e, w')
        end
    end.

(** The updates of the state. *)
Definition store_flag (k : flag_key) (b : bool) (w : world) : world :=
  mk_world (<[k := b]> (configuration_failed_message_send w))
           (log w) (cost_log w) (queries w) (clock_reads w).

Definition append_log (msg : warning) (w : world) : world :=
  mk_world (configuration_failed_message_send w)
           (log w ++ [msg]) (cost_log w) (queries w) (clock_reads w).

Definition append_cost (key : string) (data : cost_data) (w : world) : world :=
  mk_world (configuration_failed_message_send w)
           (log w) (cost_log w ++ [(key, data)]) (queries w) (clock_reads w).

Definition append_query (q : query) (w : world) : world :=
  mk_world (configuration_failed_message_send w)
           (log w) (cost_log w) (queries w ++ [q]) (clock_reads w).

Definition tick_clock (w : world) : world :=
  mk_world (configuration_failed_message_send w)
           (log w) (cost_log w) (queries w) (S (clock_reads w)).

(** [configuration_failed_message_send[k]]. *)
Definition get_flag (k : flag_key) : M bool := fun w =>
  (getitem (configuration_failed_message_send w) k, w).

(** [configuration_failed_message_send[k] = b]. *)
Definition set_flag (k : flag_key) (b : bool) : M unit := fun w =>
  (Ok tt, store_flag k b w).

(** [lh.write_log(lh.LoggingLevel.WARNING.value, message)]. *)
Definition write_log (msg : warning) : M unit := fun w =>
  (Ok tt, append_log msg w).

(** [sf.cost_logging(key, data)]. *)
Definition cost_logging (key : string) (data : cost_data) : M unit := fun w =>
  (Ok tt, append_cost key data w).

(** [sf.fetch_measurements(q).get_points()]. *)
Definition do_fetch (e : env) (q : query) : M (list measurement) := fun w =>
  (Ok (fetch_measurements e q), append_query q w).

(** [datetime.utcnow()]. *)
Definition utcnow (e : env) : M datetime := fun w =>
  (Ok (utc_clock e (clock_reads w)), tick_clock w).

(** [open(CONFIGURATION_FILE_PATH)] followed by [json.load]. *)
Definition load_config (e : env) : M (gmap string (gmap string pyval)) :=
  match config e with
  | ConfigMissing => raise FileNotFoundError
  | ConfigNotJson => raise ValueError
  | ConfigData data => mret data
  end.

(** ** Numbers *)

(** Python's [round(x, ndigits)]: to the nearest multiple of
    [10 ** -ndigits], ties to the even one.  Python rounds the binary
    float, whose value can lie just beside a decimal tie, and returns the
    float nearest to the multiple. *)
Definition round_half_even (q : Q) : Z :=
  let f := Qfloor q in
  match Qcompare (q - inject_Z f) (1 # 2) with
  | Lt => f
  | Gt => f + 1
  | Eq => if Z.even f then f else f + 1
  end.

Definition py_round (q : Q) (ndigits : nat) : Q :=
  let scale := inject_Z (10 ^ Z.of_nat ndigits) in
  Qred (inject_Z (round_half_even (q * scale)) / scale).

(** True division [a / b]. *)
Definition truediv (a b : Q) : result Q :=
  if Qeq_bool b 0 then Raise ZeroDivisionError else Ok (Qred (a / b)).

(** [sum(element["energy_wh"] for element in ms)]. *)
Definition sum_energy_wh (ms : list measurement) : Q :=
  Qred (fold_left (fun acc m => acc + energy_wh m)%Q ms 0%Q).

(** The integers from which [float] can be made: conversion rounds to
    the nearest float, and from [2 ** 1024 - 2 ** 970] on that is beyond
    the largest one. *)
Definition FLOAT_INT_BOUND : Z := 2 ^ 1024 - 2 ^ 970.

(** A number used as the right operand of [/] under a float: an integer
    is converted to a float first, which raises [OverflowError] when it
    is too large. *)
Definition as_number (v : pyval) : result Q :=
  match v with
  | VInt z =>
      if Z.abs z <? FLOAT_INT_BOUND then Ok (inject_Z z)
      else Raise OverflowError
  | VFloat q => Ok q
  | VBool b => Ok (if b then 1%Q else 0%Q)
  | _ => Raise TypeError
  end.

(** ** The configuration readers *)

(** The [except FileNotFoundError] clause shared by both readers, lines
    43-53 and 73-83. *)
Definition on_file_not_found {A} (fallback : A) : M A :=
  sent ← get_flag (KeyClass FileNotFoundError);
  (if negb sent then
     write_log WarnConfigFileNotFound;;
     set_flag (KeyClass FileNotFoundError) true
   else mret tt);;
  mret fallback.

(** The [except ValueError] clause of [check_cost_config], lines 84-92. *)
Definition on_value_error {A} (fallback : A) : M A :=
  sent ← get_flag (KeyClass ValueError);
  (if negb sent then
     write_log WarnPriceNotANumber;;
     set_flag (KeyClass ValueError) true
   else mret tt);;
  mret fallback.

(** [check_cost_calc_request_time], lines 24-53. *)
Definition check_cost_calc_request_time (e : env) : M string :=
  let checked_requested_start_time := "00:00"%string in
  try_except
    (data ← load_config e;
     if contains data "general" then
       general ← lift (getitem data "general");
       if contains general "cost_calc_request_time" then
         requested_start_time ← lift (getitem general "cost_calc_request_time");
         found ← lift (re_search TIME_OF_DAY_SCHEDULE_MATCH requested_start_time);
         match requested_start_time with
         | VStr s => mret (if (found : bool) then s
                           else checked_requested_start_time)
         | _ => raise TypeError
         end
       else mret checked_requested_start_time
     else mret checked_requested_start_time)
    (fun ex =>
       match ex with
       | FileNotFoundError =>
           Some (on_file_not_found checked_requested_start_time)
       | _ => None
       end).

(** [float(x)] for a float or a string. *)
Definition py_float (e : env) (v : pyval) : M Q :=
  match v with
  | VFloat q => mret q
  | VInt z =>
      if Z.abs z <? FLOAT_INT_BOUND then mret (inject_Z z)
      else raise OverflowError
  | VBool b => mret (if b then 1%Q else 0%Q)
  | VStr s =>
      match float_of_string e s with
      | Some q => mret q
      | None => raise ValueError
      end
  | VNone => raise TypeError
  end.

(** [check_cost_config], lines 56-92.  The local
    [checked_requested_kwh_price] is bound only inside the inner [if]. *)
Definition check_cost_config (e : env) : M Q :=
  let default_price := (3 # 10)%Q in
  try_except
    (data ← load_config e;
     checked_requested_kwh_price ←
       (if contains data "general" then
          general ← lift (getitem data "general");
          if contains general "price_kwh" then
            requested_kwh_price ← lift (getitem general "price_kwh");
            requested_kwh_price ←
              match requested_kwh_price with
              | VFloat _ => mret requested_kwh_price
              | VStr s => mret (VStr (replace_char "," "." s))
              | _ => raise AttributeError
              end;
            price ← py_float e requested_kwh_price;
            mret (Some (py_round price 3))
          else mret None
        else mret None);
     match checked_requested_kwh_price with
     | Some price => mret price
     | None => raise UnboundLocalError
     end)
    (fun ex =>
       match ex with
       | FileNotFoundError => Some (on_file_not_found default_price)
       | ValueError => Some (on_value_error default_price)
       | _ => None
       end).

(** ** The aggregator *)

(** The fields of [dateutil.relativedelta] that the program sets, as the
    constructor leaves them ([months] between -11 and 11). *)
Record relativedelta : Type := mk_relativedelta {
  years : Z;
  months : Z;
  days : Z
}.

(** [dt - delta] for a [relativedelta]: the negated delta is added; years
    and months move on the calendar, the day is cut to the length of the
    month reached, and the days are added last. *)
Definition sub_relativedelta (dt : datetime) (delta : relativedelta)
  : result datetime :=
  let dy := - years delta in
  let dm := - months delta in
  let dd := - days delta in
  let y := year dt + dy in
  let m := month dt in
  '(y, m) ←
    (if dm =? 0 then Ok (y, m)
     else if (1 <=? Z.abs dm) && (Z.abs dm <=? 12) then
       let m := m + dm in
       if 12 <? m then Ok (y + 1, m - 12)
       else if m <? 1 then Ok (y - 1, m + 12)
       else Ok (y, m)
     else Raise AssertionError);
  let d := Z.min (days_in_month y m) (day dt) in
  repl ← replace (Some y) (Some m) (Some d) dt;
  add_days repl dd.

Definition digit_char (d : Z) : ascii := Ascii.ascii_of_nat (48 + Z.to_nat d).

Definition pad2 (z : Z) : string :=
  String (digit_char (z / 10 mod 10)) (String (digit_char (z mod 10)) "").

Definition pad4 (z : Z) : string :=
  String (digit_char (z / 1000 mod 10))
    (String (digit_char (z / 100 mod 10)) (pad2 z)).

(** [dt.strftime("%Y-%m-%d %H:%M:%S")], the year on four digits. *)
Definition strftime (dt : datetime) : string :=
  pad4 (year dt) +:+ "-" +:+ pad2 (month dt) +:+ "-" +:+ pad2 (day dt)
  +:+ " " +:+ pad2 (hour dt) +:+ ":" +:+ pad2 (minute dt) +:+ ":"
  +:+ pad2 (second dt).

(** [len(l)], as an operand of a true division. *)
Definition len {A} (l : list A) : Q := inject_Z (Z.of_nat (length l)).

(** [cost_calc], lines 95-158. *)
Definition cost_calc (e : env) (device_name : string)
    (settings : gmap string pyval) (current_timestamp : datetime)
    (time_difference : relativedelta) : M unit :=
  start_date ← lift (sub_relativedelta current_timestamp time_difference);
  let start_date_format := strftime start_date in
  let end_date := current_timestamp in
  let end_date_format := strftime end_date in
  result ← do_fetch e (mk_query device_name start_date_format end_date_format);
  let success_measurements := List.filter fetch_success result in
  let failed_measurements :=
    List.filter (fun m => negb (fetch_success m)) result in
  let sum_of_energy_in_kwh :=
    py_round (sum_energy_wh success_measurements / 1000) 2 in
  cost_kwh ← check_cost_config e;
  if (length success_measurements + length failed_measurements =? 0)%nat
  then mret tt
  else
    update_time ← lift (getitem settings "update_time" ≫= as_number);
    max_values ←
      lift (truediv (inject_Z (total_seconds_between end_date start_date))
                    update_time);
    rate_one ←
      lift (truediv (len failed_measurements * 100)
                    (len success_measurements + len failed_measurements));
    rate_two ←
      lift (truediv ((max_values - len success_measurements) * 100)
                    max_values);
    let data :=
      mk_cost_data start_date_format end_date_format sum_of_energy_in_kwh
                   (Qred (sum_of_energy_in_kwh * cost_kwh)) cost_kwh
                   rate_one rate_two in
    if days time_difference =? 1
    then cost_logging (device_name +:+ "_day") data
    else if months time_difference =? 1
    then cost_logging (device_name +:+ "_month") data
    else if years time_difference =? 1
    then cost_logging (device_name +:+ "_year") data
    else mret tt.

(** ** The dispatcher *)

(** [cost_calc_handler], lines 282-317. *)
Definition cost_calc_handler (e : env) (device_name : string)
    (settings : gmap string pyval) (cost_calc_requested : requested)
  : M unit :=
  current_timestamp ← utcnow e;
  (if cost_day cost_calc_requested then
     cost_calc e device_name settings current_timestamp
               (mk_relativedelta 0 0 1)
   else mret tt);;
  match cost_month cost_calc_requested with
  | Some target_day =>
      matched ← lift (check_matched_day current_timestamp target_day);
      if (matched : bool) then
        cost_calc e device_name settings current_timestamp
                  (mk_relativedelta 0 1 0)
      else mret tt
  | None => mret tt
  end;;
  match cost_year cost_calc_requested with
  | Some target =>
      matched ← lift (check_matched_day_and_month current_timestamp
                        (yv_day target) (yv_month target));
      if (matched : bool) then
        cost_calc e device_name settings current_timestamp
                  (mk_relativedelta 1 0 0)
      else mret tt
  | None => mret tt
  end.

(** ** Reference notions used in the statements *)

(** Ordinal of the first day of the month after month [m] of year [y]. *)
Definition first_of_next_month_ord (y m : Z) : Z :=
  if m =? 12 then ymd_to_ord (y + 1) 1 1 else ymd_to_ord y (m + 1) 1.

(** A settings entry that is absent or holds a string. *)
Definition string_or_absent (o : option pyval) : Prop :=
  match o with
  | None | Some (VStr _) => True
  | Some _ => False
  end.

(** A settings entry that holds a string accepted by [pattern]. *)
Definition matched_entry (pattern : string -> bool) (o : option pyval) : Prop :=
  exists s, o = Some (VStr s) /\ pattern s = true.

(** The price lookup returns [p], whatever the state, and leaves the state
    as it is. *)
Definition price_is (e : env) (p : Q) : Prop :=
  forall w, check_cost_config e w = (Ok p, w).

(** The suffix of the sink key for a window, [None] when nothing is
    written. *)
Definition cadence_suffix (delta : relativedelta) : option string :=
  if days delta =? 1 then Some "_day"%string
  else if months delta =? 1 then Some "_month"%string
  else if years delta =? 1 then Some "_year"%string
  else None.

(** The number of samples expected in a window of [seconds] seconds. *)
Definition expected_sample_count (seconds : Z) (update_time : Q) : Q :=
  (inject_Z seconds / update_time)%Q.

(** The three cadences, their deltas and sink keys. *)
Inductive cadence : Type :=
| Daily
| Monthly
| Yearly.

Definition cadence_delta (c : cadence) : relativedelta :=
  match c with
  | Daily => mk_relativedelta 0 0 1
  | Monthly => mk_relativedelta 0 1 0
  | Yearly => mk_relativedelta 1 0 0
  end.

Definition cadence_key (device_name : string) (c : cadence) : string :=
  device_name +:+ match c with
                  | Daily => "_day"
                  | Monthly => "_month"
                  | Yearly => "_year"
                  end.

(** One calendar unit before a date: the day before; the same day of the
    month before, or of the year before, cut to the length of the month
    reached. *)
Definition one_day_before (dt : datetime) : datetime :=
  if 1 <? day dt then
    mk_datetime (year dt) (month dt) (day dt - 1)
                (hour dt) (minute dt) (second dt)
  else if 1 <? month dt then
    mk_datetime (year dt) (month dt - 1)
                (days_in_month (year dt) (month dt - 1))
                (hour dt) (minute dt) (second dt)
  else mk_datetime (year dt - 1) 12 31 (hour dt) (minute dt) (second dt).

Definition one_month_before (dt : datetime) : datetime :=
  let y := if month dt =? 1 then year dt - 1 else year dt in
  let m := if month dt =? 1 then 12 else month dt - 1 in
  mk_datetime y m (Z.min (days_in_month y m) (day dt))
              (hour dt) (minute dt) (second dt).

Definition one_year_before (dt : datetime) : datetime :=
  mk_datetime (year dt - 1) (month dt)
              (Z.min (days_in_month (year dt - 1) (month dt)) (day dt))
              (hour dt) (minute dt) (second dt).

Definition window_start (now : datetime) (c : cadence) : datetime :=
  match c with
  | Daily => one_day_before now
  | Monthly => one_month_before now
  | Yearly => one_year_before now
  end.

(** The query for the window [[window_start now c, now)]. *)
Definition window_query (device_name : string) (now : datetime) (c : cadence)
  : query :=
  mk_query device_name (strftime (window_start now c)) (strftime now).

(** The cadences that are due at [now], in the order of the dispatcher:
    daily when enabled, monthly when its target day matches, yearly when
    its target day and month match. *)
Definition due_cadences (req : requested) (now : datetime) : list cadence :=
  (if cost_day req then [Daily] else [])
  ++ match cost_month req with
     | Some target_day =>
         match check_matched_day now target_day with
         | Ok true => [Monthly]
         | _ => []
         end
     | None => []
     end
  ++ match cost_year req with
     | Some target =>
         match check_matched_day_and_month now (yv_day target)
                 (yv_month target) with
         | Ok true => [Yearly]
         | _ => []
         end
     | None => []
     end.

(** One aggregation per cadence of a list, with the same timestamp. *)
Fixpoint run_cadences (e : env) (device_name : string)
    (settings : gmap string pyval) (now : datetime) (cs : list cadence)
  : M unit :=
  match cs with
  | [] => mret tt
  | c :: cs' =>
      cost_calc e device_name settings now (cadence_delta c);;
      run_cadences e device_name settings now cs'
  end.

(** The store has points for the query. *)
Definition has_samples (e : env) (q : query) : bool :=
  negb (length (fetch_measurements e q) =? 0)%nat.

(** A sink entry is the record of cadence [c] for the window ending at
    [now]. *)
Definition record_of_window (device_name : string) (now : datetime)
    (c : cadence) (entry : string * cost_data) : Prop :=
  entry.1 = cadence_key device_name c
  /\ start_date entry.2 = strftime (window_start now c)
  /\ end_date entry.2 = strftime now.

(** ** Concrete collaborators for the examples *)

(** A reading of [float] on plain decimal text: digits, at most one point,
    at least one digit. *)
Fixpoint decimal_digits (acc : Z) (scale : positive) (frac seen : bool)
    (s : string) : option Q :=
  match s with
  | EmptyString => if seen then Some (acc # scale) else None
  | String c rest =>
      if is_digit c then
        decimal_digits (10 * acc + digit_value c)
                       (if frac then 10 * scale else scale)%positive
                       frac true rest
      else if Ascii.eqb c "." && negb frac then
        decimal_digits acc scale true seen rest
      else None
  end.

Definition decimal_of_string (s : string) : option Q :=
  Qred <$> decimal_digits 0 1 false false s.

Definition example_now : datetime := mk_datetime 2024 3 31 10 0 0.

(** No configuration file. *)
Definition env_no_config : env :=
  mk_env ConfigMissing decimal_of_string (fun _ => []) (fun _ => example_now).

(** A configuration whose price is not a number. *)
Definition env_bad_price : env :=
  mk_env (ConfigData {[ "general" := {[ "price_kwh" := VStr "abc" ]} ]})
         decimal_of_string (fun _ => []) (fun _ => example_now).

Definition price_030 : config_file :=
  ConfigData {[ "general" := {[ "price_kwh" := VFloat (3 # 10) ]} ]}.

(** Ten samples: eight successful with 1000 Wh each, two failed. *)
Definition env_scenario : env :=
  mk_env price_030 decimal_of_string
         (fun _ => repeat (mk_measurement true 1000) 8
                   ++ repeat (mk_measurement false 0) 2)
         (fun _ => example_now).

(** Three successful samples in every window. *)
Definition env_three_samples : env :=
  mk_env price_030 decimal_of_string
         (fun _ => repeat (mk_measurement true 500) 3)
         (fun _ => example_now).



(** A price of 0.30 and a store without points. *)
Definition env_no_samples : env :=
  mk_env price_030 decimal_of_string (fun _ => []) (fun _ => example_now).

(** A device reporting every minute, and one reporting twice a day. *)
Definition settings_minute : gmap string pyval :=
  {[ "update_time" := VInt 60 ]}.

Definition settings_half_day : gmap string pyval :=
  {[ "update_time" := VInt 43200 ]}.

(** An update interval that no float can hold. *)
Definition settings_huge_interval : gmap string pyval :=
  {[ "update_time" := VInt (10 ^ 400) ]}.

(** ** Notions for the further properties *)

(** [c in s] for a character. *)
Fixpoint mentions (c : ascii) (s : string) : bool :=
  match s with
  | EmptyString => false
  | String c' rest => Ascii.eqb c' c || mentions c rest
  end.

(** The state [w'] comes from [w] by at most [n] queries, all for windows
    that end at [now] on device [device_name], and by at most one record
    per query; the clock is not read. *)
Definition extends_by (n : nat) (device_name : string) (now : datetime)
    (w w' : world) : Prop :=
  clock_reads w' = clock_reads w
  /\ exists qs recs,
       queries w' = queries w ++ qs
       /\ cost_log w' = cost_log w ++ recs
       /\ (length qs <= n)%nat
       /\ (length recs <= length qs)%nat
       /\ Forall (fun q => q_device q = device_name
                           /\ q_current_date q = strftime now) qs.

(** Every run of [m] extends the state by at most [n] queries. *)
Definition frames {A} (n : nat) (device_name : string) (now : datetime)
    (m : M A) : Prop :=
  forall w r w', m w = (r, w') -> extends_by n device_name now w w'.

(** A configuration with a start time and without a price. *)
Definition env_request_time : env :=
  mk_env (ConfigData
            {[ "general" := {[ "cost_calc_request_time" := VStr "06:30" ]} ]})
         decimal_of_string (fun _ => []) (fun _ => example_now).

(** A price written with a decimal comma. *)
Definition env_comma_price : env :=
  mk_env (ConfigData {[ "general" := {[ "price_kwh" := VStr "0,2874" ]} ]})
         decimal_of_string (fun _ => []) (fun _ => example_now).

(** The environment [e] with another configuration file. *)
Definition with_config (c : config_file) (e : env) : env :=
  mk_env c (float_of_string e) (fetch_measurements e) (utc_clock e).

(** The same price written with a decimal point. *)
Definition env_point_price : env :=
  mk_env (ConfigData {[ "general" := {[ "price_kwh" := VStr "0.2874" ]} ]})
         decimal_of_string (fun _ => []) (fun _ => example_now).

(** Settings that ask for the daily report and give no update interval. *)
Definition settings_day_only : gmap string pyval :=
  {[ "cost_calc_day" := VBool true ]}.

(** * Properties *)

(** ** Calendar facts *)

Ltac month_cases m :=
  let H := fresh "Hm" in
  assert (H : m = 1 \/ m = 2 \/ m = 3 \/ m = 4 \/ m = 5 \/ m = 6 \/ m = 7
              \/ m = 8 \/ m = 9 \/ m = 10 \/ m = 11 \/ m = 12) by lia;
  destruct H as [-> | [-> | [-> | [-> | [-> | [-> | [-> | [-> | [-> | [-> |
                 [-> | ->]]]]]]]]]]].

Lemma check_date_fields_spec y m d :
  check_date_fields y m d = true
  <-> (1 <= y <= 9999 /\ 1 <= m <= 12 /\ 1 <= d <= days_in_month y m).
Proof.
  unfold check_date_fields, MINYEAR, MAXYEAR.
  rewrite !andb_true_iff, !Z.leb_le. lia.
Qed.

Lemma valid_datetime_date dt :
  valid_datetime dt = true ->
  1 <= year dt <= 9999 /\ 1 <= month dt <= 12
  /\ 1 <= day dt <= days_in_month (year dt) (month dt).
Proof.
  unfold valid_datetime. rewrite andb_true_iff.
  intros [H _]. by apply check_date_fields_spec.
Qed.

Lemma days_in_month_bounds y m :
  1 <= m <= 12 -> 28 <= days_in_month y m <= 31.
Proof.
  intros Hm. unfold days_in_month.
  month_cases m; simpl; destruct (is_leap y); simpl; lia.
Qed.

Lemma days_in_month_cases y m :
  1 <= m <= 12 ->
  days_in_month y m = 28 /\ m = 2 /\ is_leap y = false
  \/ days_in_month y m = 29 /\ m = 2 /\ is_leap y = true
  \/ days_in_month y m = 30 /\ (m = 4 \/ m = 6 \/ m = 9 \/ m = 11)
  \/ days_in_month y m = 31
     /\ (m = 1 \/ m = 3 \/ m = 5 \/ m = 7 \/ m = 8 \/ m = 10 \/ m = 12).
Proof.
  intros Hm. unfold days_in_month.
  month_cases m; simpl; destruct (is_leap y); simpl; lia.
Qed.

Lemma days_before_month_next y m :
  1 <= m <= 11 ->
  days_before_month y (m + 1) = days_before_month y m + days_in_month y m.
Proof.
  intros Hm. unfold days_before_month, days_in_month.
  month_cases m; simpl; destruct (is_leap y); simpl; lia.
Qed.

Lemma days_before_month_12 y :
  days_before_month y 12 + 31 = 365 + (if is_leap y then 1 else 0).
Proof. unfold days_before_month. simpl. destruct (is_leap y); lia. Qed.

Lemma days_before_year_next y :
  days_before_year (y + 1)
  = days_before_year y + 365 + (if is_leap y then 1 else 0).
Proof.
  unfold days_before_year, is_leap. cbv zeta.
  replace (y + 1 - 1) with y by lia.
  destruct (Z.eqb_spec (y mod 4) 0), (Z.eqb_spec (y mod 100) 0),
    (Z.eqb_spec (y mod 400) 0); simpl;
    Z.to_euclidean_division_equations; lia.
Qed.

(** One day back from a valid date, by [normalize_y_m_d]. *)
Lemma normalize_previous_day y m :
  1 <= y <= 9999 -> 2 <= m <= 12 ->
  normalize_y_m_d y m 0 = Ok (y, m - 1, days_in_month y (m - 1)).
Proof.
  intros Hy Hm. unfold normalize_y_m_d, MINYEAR, MAXYEAR.
  replace (0 <? 1) with true by reflexivity. simpl orb. simpl (0 =? 0).
  cbv iota.
  destruct (Z.ltb_spec 0 (m - 1)); [|lia].
  destruct (Z.leb_spec 1 y); [|lia].
  destruct (Z.leb_spec y 9999); [|lia]. reflexivity.
Qed.

Lemma normalize_in_range y m d :
  1 <= y <= 9999 -> 1 <= d <= days_in_month y m ->
  normalize_y_m_d y m d = Ok (y, m, d).
Proof.
  intros Hy Hd. unfold normalize_y_m_d, MINYEAR, MAXYEAR.
  destruct (Z.ltb_spec d 1); [lia|].
  destruct (Z.ltb_spec (days_in_month y m) d); [lia|]. simpl.
  destruct (Z.leb_spec 1 y); [|lia].
  destruct (Z.leb_spec y 9999); [|lia]. reflexivity.
Qed.

(** The day after the last day of a month is the first day of the month
    that follows. *)
Lemma month_end_ordinal y m :
  1 <= m <= 12 ->
  ymd_to_ord y m (days_in_month y m) + 1 = first_of_next_month_ord y m.
Proof.
  intros Hm. unfold first_of_next_month_ord, ymd_to_ord.
  destruct (Z.eqb_spec m 12) as [-> | Hne].
  - rewrite days_before_year_next.
    pose proof (days_before_month_12 y) as H12.
    replace (days_in_month y 12) with 31 by reflexivity.
    replace (days_before_month (y + 1) 1) with 0 by reflexivity. lia.
  - rewrite days_before_month_next by lia. lia.
Qed.

Lemma last_day_of_month_eq dt :
  valid_datetime dt = true ->
  last_day_of_month dt
  = Ok (mk_datetime (year dt) (month dt)
          (days_in_month (year dt) (month dt))
          (hour dt) (minute dt) (second dt)).
Proof.
  intros Hv. destruct (valid_datetime_date dt Hv) as (Hy & Hm & Hd).
  unfold last_day_of_month.
  destruct (Z.eqb_spec (month dt) 12) as [H12 | Hne].
  - unfold replace. simpl default.
    assert (Hc : check_date_fields (year dt) (month dt) 31 = true).
    { apply check_date_fields_spec. rewrite H12.
      replace (days_in_month (year dt) 12) with 31 by reflexivity. lia. }
    rewrite Hc, H12. reflexivity.
  - unfold replace. simpl default.
    assert (Hc : check_date_fields (year dt) (month dt + 1) 1 = true).
    { apply check_date_fields_spec.
      pose proof (days_in_month_bounds (year dt) (month dt + 1)). lia. }
    rewrite Hc. simpl. unfold add_days. simpl.
    rewrite normalize_previous_day by lia. simpl.
    replace (month dt + 1 - 1) with (month dt) by lia. reflexivity.
Qed.

(** ** The date matcher *)

(** C8: for every valid date, [last_day_of_month] returns a valid date of
    the same year and month (and time of day) whose day is the last
    calendar day of that month: 28, 29, 30 or 31, with 29 for February of a
    leap year and 31 for December, the day after it being the first day of
    the next month. *)
Theorem last_day_of_month_correct (dt : datetime) :
  valid_datetime dt = true ->
  exists r,
    last_day_of_month dt = Ok r
    /\ valid_datetime r = true
    /\ year r = year dt /\ month r = month dt
    /\ hour r = hour dt /\ minute r = minute dt /\ second r = second dt
    /\ day r = days_in_month (year dt) (month dt)
    /\ (day r = 28 \/ day r = 29 \/ day r = 30 \/ day r = 31)
    /\ (month dt = 2 -> (day r = 29 <-> is_leap (year dt) = true))
    /\ (month dt = 2 -> (day r = 28 <-> is_leap (year dt) = false))
    /\ (month dt = 12 -> day r = 31)
    /\ ymd_to_ord (year r) (month r) (day r) + 1
       = first_of_next_month_ord (year dt) (month dt).
Proof.
  intros Hv. destruct (valid_datetime_date dt Hv) as (Hy & Hm & Hd).
  eexists. split; [by apply last_day_of_month_eq|]. simpl.
  pose proof (days_in_month_cases (year dt) (month dt) Hm) as Hc.
  pose proof (days_in_month_bounds (year dt) (month dt) Hm) as Hb.
  repeat split; try lia.
  - unfold valid_datetime in *. simpl.
    apply andb_true_iff in Hv as [_ ->]. rewrite andb_true_r.
    apply check_date_fields_spec. lia.
  - intros H29. destruct (is_leap (year dt)); [done | lia].
  - intros Hl. rewrite Hl in Hc. lia.
  - intros H28. destruct (is_leap (year dt)); [lia | done].
  - intros Hl. rewrite Hl in Hc. lia.
  - by apply month_end_ordinal.
Qed.

Lemma last_day_of_month_correct_witness :
  exists r, last_day_of_month (mk_datetime 2024 2 10 8 30 0) = Ok r
            /\ day r = 29.
Proof.
  destruct (last_day_of_month_correct (mk_datetime 2024 2 10 8 30 0))
    as (r & Hr & _ & _ & _ & _ & _ & _ & Hd & _); [reflexivity|].
  exists r. split; [exact Hr | exact Hd].
Defined.

(** C4: for every valid date [now] and every [target_day],
    [check_matched_day] returns true exactly when either the target is
    past the last day of [now]'s month and [now] is that last day, or the
    target is not past it and [now]'s day is the target; so a target of 31
    matches on the last day of every month. *)
Theorem check_matched_day_iff (now : datetime) (target_day : Z) :
  valid_datetime now = true ->
  let last_day := days_in_month (year now) (month now) in
  exists b,
    check_matched_day now target_day = Ok b
    /\ (b = true <->
        (target_day > last_day /\ day now = last_day)
        \/ (target_day <= last_day /\ day now = target_day))
    /\ (day now = last_day -> check_matched_day now 31 = Ok true).
Proof.
  intros Hv last_day.
  destruct (valid_datetime_date now Hv) as (Hy & Hm & Hd).
  pose proof (days_in_month_bounds (year now) (month now) Hm) as Hb.
  unfold check_matched_day. rewrite (last_day_of_month_eq now Hv).
  simpl. fold last_day.
  exists (if last_day <? target_day then day now =? last_day
          else day now =? target_day).
  split_and!.
  - destruct (last_day <? target_day);
      [destruct (day now =? last_day) | destruct (day now =? target_day)];
      reflexivity.
  - destruct (Z.ltb_spec last_day target_day);
      [destruct (Z.eqb_spec (day now) last_day)
      | destruct (Z.eqb_spec (day now) target_day)]; split; intros; try lia;
      try done.
  - intros Hlast. destruct (Z.ltb_spec last_day 31).
    + destruct (Z.eqb_spec (day now) last_day); [reflexivity | lia].
    + destruct (Z.eqb_spec (day now) 31); [reflexivity | lia].
Qed.

Lemma check_matched_day_iff_witness :
  check_matched_day (mk_datetime 2024 2 29 10 0 0) 31 = Ok true.
Proof.
  destruct (check_matched_day_iff (mk_datetime 2024 2 29 10 0 0) 31)
    as (b & _ & _ & H); [reflexivity|].
  apply H. reflexivity.
Defined.

(** The scenarios of the specification for a monthly target of 31. *)
Example check_matched_day_scenarios :
  check_matched_day (mk_datetime 2023 1 31 0 0 0) 31 = Ok true
  /\ check_matched_day (mk_datetime 2023 2 28 0 0 0) 31 = Ok true
  /\ check_matched_day (mk_datetime 2024 2 29 10 0 0) 31 = Ok true
  /\ check_matched_day (mk_datetime 2023 3 15 0 0 0) 31 = Ok false.
Proof. repeat split. Qed.

(** ** The schedule resolver *)

(** The patterns on a few texts: a trailing newline is accepted by [$]. *)
Example schedule_patterns :
  DAY_OF_MONTH_SCHEDULE_MATCH "31" = true
  /\ DAY_OF_MONTH_SCHEDULE_MATCH (String "3" (String "1" (String newline "")))
     = true
  /\ DAY_OF_MONTH_SCHEDULE_MATCH "3" = false
  /\ DAY_OF_MONTH_SCHEDULE_MATCH "311" = false
  /\ DATE_OF_YEAR_SCHEDULE_MATCH "40.05" = true
  /\ DATE_OF_YEAR_SCHEDULE_MATCH "40-05" = false
  /\ TIME_OF_DAY_SCHEDULE_MATCH "23:59" = true
  /\ TIME_OF_DAY_SCHEDULE_MATCH "24:00" = false.
Proof. repeat split. Qed.

(** The example of the specification: "40.05" keeps the month and
    defaults the day. *)
Example check_year_parameter_40_05 :
  check_year_parameter "40.05" = Ok (mk_year_values 1 5).
Proof. reflexivity. Qed.

Lemma is_digit_cases (c : ascii) :
  is_digit c = true ->
  c = "0"%char \/ c = "1"%char \/ c = "2"%char \/ c = "3"%char
  \/ c = "4"%char \/ c = "5"%char \/ c = "6"%char \/ c = "7"%char
  \/ c = "8"%char \/ c = "9"%char.
Proof.
  destruct c as [[] [] [] [] [] [] [] []]; intros H;
    try discriminate H; tauto.
Qed.

Ltac digit_cases H :=
  apply is_digit_cases in H;
  destruct H as [-> | [-> | [-> | [-> | [-> | [-> | [-> | [-> | [-> | ->]]]]]]]]].

Lemma at_dollar_cases (s : string) :
  at_dollar s = true -> s = EmptyString \/ s = String newline EmptyString.
Proof.
  destruct s as [|c [|c' s']]; simpl; intros H; try discriminate; auto.
  right. apply Ascii.eqb_eq in H. by subst.
Qed.

(** [int] on a string accepted by one of the schedule patterns. *)
Lemma py_int_two_digits (a b : ascii) (rest : string) :
  is_digit a = true -> is_digit b = true -> at_dollar rest = true ->
  py_int (String a (String b rest))
  = Ok (10 * digit_value a + digit_value b)
  /\ 0 <= 10 * digit_value a + digit_value b <= 99.
Proof.
  intros Ha Hb Hr.
  apply at_dollar_cases in Hr as [-> | ->];
    digit_cases Ha; digit_cases Hb; (split; [reflexivity | by vm_compute]).
Qed.

Lemma day_of_month_match_inv (s : string) :
  DAY_OF_MONTH_SCHEDULE_MATCH s = true ->
  exists a b rest,
    s = String a (String b rest)
    /\ is_digit a = true /\ is_digit b = true /\ at_dollar rest = true.
Proof.
  destruct s as [|a [|b rest]]; simpl; try discriminate.
  rewrite !andb_true_iff. intros [[Ha Hb] Hr]. eauto 10.
Qed.

Lemma date_of_year_match_inv (s : string) :
  DATE_OF_YEAR_SCHEDULE_MATCH s = true ->
  exists a b d e rest,
    s = String a (String b (String "." (String d (String e rest))))
    /\ is_digit a = true /\ is_digit b = true
    /\ is_digit d = true /\ is_digit e = true /\ at_dollar rest = true.
Proof.
  destruct s as [|a [|b [|c [|d [|e rest]]]]]; simpl; try discriminate.
  rewrite !andb_true_iff. intros [[[[[Ha Hb] Hc] Hd] He] Hr].
  apply Ascii.eqb_eq in Hc. subst c. eauto 12.
Qed.

Lemma split_on_date (a b d e : ascii) (rest : string) :
  is_digit a = true -> is_digit b = true ->
  is_digit d = true -> is_digit e = true -> at_dollar rest = true ->
  split_on "." (String a (String b (String "." (String d (String e rest)))))
  = [String a (String b EmptyString); String d (String e rest)].
Proof.
  intros Ha Hb Hd He Hr.
  assert (Hdot : forall c, is_digit c = true -> Ascii.eqb c "." = false).
  { intros c Hc. digit_cases Hc; reflexivity. }
  apply at_dollar_cases in Hr.
  simpl. rewrite !Hdot by assumption.
  destruct Hr as [-> | ->]; reflexivity.
Qed.

(** What the validators return, on any integer text. *)
Lemma check_month_parameter_value (s : string) (n : Z) :
  py_int s = Ok n ->
  check_month_parameter s = Ok (if (1 <=? n) && (n <=? 12) then n else 1).
Proof.
  intros H. unfold check_month_parameter. rewrite H. simpl.
  destruct (Z.ltb_spec n 1), (Z.ltb_spec 12 n), (Z.leb_spec 1 n),
    (Z.leb_spec n 12); simpl; try reflexivity; lia.
Qed.

Lemma check_day_parameter_value (s : string) (n : Z) :
  py_int s = Ok n ->
  check_day_parameter s = Ok (if (1 <=? n) && (n <=? 31) then n else 1).
Proof.
  intros H. unfold check_day_parameter. rewrite H. simpl.
  destruct (Z.ltb_spec n 1), (Z.ltb_spec 31 n), (Z.leb_spec 1 n),
    (Z.leb_spec n 31); simpl; try reflexivity; lia.
Qed.

Lemma check_month_parameter_matched (s : string) :
  DAY_OF_MONTH_SCHEDULE_MATCH s = true ->
  exists n, py_int s = Ok n /\ 0 <= n <= 99
    /\ check_month_parameter s
       = Ok (if (1 <=? n) && (n <=? 12) then n else 1).
Proof.
  intros (a & b & rest & -> & Ha & Hb & Hr)%day_of_month_match_inv.
  destruct (py_int_two_digits a b rest Ha Hb Hr) as [Hi Hn].
  eexists. split; [exact Hi|]. split; [exact Hn|].
  by apply check_month_parameter_value.
Qed.

Lemma check_year_parameter_matched (s : string) :
  DATE_OF_YEAR_SCHEDULE_MATCH s = true ->
  exists dd mm,
    check_year_parameter s
    = Ok (mk_year_values (if (1 <=? dd) && (dd <=? 31) then dd else 1)
                         (if (1 <=? mm) && (mm <=? 12) then mm else 1)).
Proof.
  intros (a & b & d & e & rest & -> & Ha & Hb & Hd & He & Hr)
    %date_of_year_match_inv.
  unfold check_year_parameter.
  rewrite split_on_date by assumption.
  destruct (py_int_two_digits a b EmptyString Ha Hb eq_refl) as [Hday _].
  destruct (py_int_two_digits d e rest Hd He Hr) as [Hmonth _].
  eexists _, _. simpl.
  rewrite (check_month_parameter_value _ _ Hmonth). simpl.
  rewrite (check_day_parameter_value _ _ Hday). simpl. reflexivity.
Qed.

Lemma contains_lookup {V} (d : gmap string V) (k : string) :
  contains d k = match d !! k with Some _ => true | None => false end.
Proof. unfold contains. destruct (d !! k); reflexivity. Qed.

(** The three steps of the resolver, one per cadence. *)
Lemma check_cost_calc_requested_unfold (settings : gmap string pyval) :
  check_cost_calc_requested settings
  = (r1 ← match settings !! "cost_calc_day" with
          | Some v => Ok (mk_requested (truthy v) (truthy v) None None)
          | None => Ok (mk_requested false false None None)
          end;
     r2 ← match settings !! "cost_calc_month" with
          | Some (VStr s) =>
              if DAY_OF_MONTH_SCHEDULE_MATCH s then
                m ← check_month_parameter s;
                Ok (mk_requested true (cost_day r1) (Some m) None)
              else Ok r1
          | Some _ => Raise TypeError
          | None => Ok r1
          end;
     match settings !! "cost_calc_year" with
     | Some (VStr s) =>
         if DATE_OF_YEAR_SCHEDULE_MATCH s then
           y ← check_year_parameter s;
           Ok (mk_requested true (cost_day r2) (cost_month r2) (Some y))
         else Ok r2
     | Some _ => Raise TypeError
     | None => Ok r2
     end).
Proof.
  unfold check_cost_calc_requested, getitem. rewrite !contains_lookup.
  destruct (settings !! "cost_calc_day") as [vd|]; simpl;
    [destruct (truthy vd); simpl|];
    (destruct (settings !! "cost_calc_month") as [[| | | |sm]|]; simpl;
     try reflexivity;
     [destruct (DAY_OF_MONTH_SCHEDULE_MATCH sm); simpl;
      [destruct (check_month_parameter sm); simpl; try reflexivity|]|]);
    (destruct (settings !! "cost_calc_year") as [[| | | |sy]|]; simpl;
     try reflexivity;
     destruct (DATE_OF_YEAR_SCHEDULE_MATCH sy); simpl; try reflexivity;
     destruct (check_year_parameter sy); reflexivity).
Qed.

(** C10: for every settings mapping, the descriptor returned by
    [check_cost_calc_requested] has [start_schedule_task] true exactly
    when a cadence is active ([cost_day] true, [cost_month] or [cost_year]
    not [None]), and [cost_month] / [cost_year] are not [None] exactly when
    the settings value is a string accepted by the pattern; the only way
    not to return a descriptor is a [TypeError] on a value that is not a
    string. *)
Theorem requested_invariant (settings : gmap string pyval) :
  match check_cost_calc_requested settings with
  | Ok r =>
      (start_schedule_task r = true
       <-> cost_day r = true \/ cost_month r <> None \/ cost_year r <> None)
      /\ (cost_month r <> None
          <-> matched_entry DAY_OF_MONTH_SCHEDULE_MATCH
                (settings !! "cost_calc_month"))
      /\ (cost_year r <> None
          <-> matched_entry DATE_OF_YEAR_SCHEDULE_MATCH
                (settings !! "cost_calc_year"))
  | Raise e =>
      e = TypeError
      /\ ~ (string_or_absent (settings !! "cost_calc_month")
            /\ string_or_absent (settings !! "cost_calc_year"))
  end.
Proof.
  rewrite check_cost_calc_requested_unfold. unfold matched_entry.
  destruct (settings !! "cost_calc_day") as [vd|]; simpl;
    (destruct (settings !! "cost_calc_month") as [[| | | |sm]|]; simpl;
     try (split; [reflexivity | tauto]);
     [destruct (DAY_OF_MONTH_SCHEDULE_MATCH sm) eqn:Hm;
      [destruct (check_month_parameter_matched sm Hm) as (n & _ & _ & ->)|]|];
     simpl;
     (destruct (settings !! "cost_calc_year") as [[| | | |sy]|]; simpl;
      try (split; [reflexivity | tauto]);
      [destruct (DATE_OF_YEAR_SCHEDULE_MATCH sy) eqn:Hy;
       [destruct (check_year_parameter_matched sy Hy) as (dd & mm & ->)|]|];
      simpl));
    try destruct (truthy vd); simpl;
    (split_and!; split;
     solve [ done
           | intros _; eauto
           | intros [? | [? | ?]]; done
           | intros (? & ? & ?); simplify_eq; congruence
           | naive_solver ]).
Qed.

(** C1: the resolver validates the monthly target with the month
    validator: the settings value "31" gives target day 1, where the day
    validator gives 31. *)
Theorem cost_calc_month_31_resolves_to_1 :
  check_cost_calc_requested {[ "cost_calc_month" := VStr "31" ]}
  = Ok (mk_requested true false (Some 1) None)
  /\ check_day_parameter "31" = Ok 31.
Proof. split; reflexivity. Qed.

(** What the resolver gives for every accepted monthly value: the cadence
    is enabled and the target is the parsed integer when it lies in 1..12,
    else 1. *)
Lemma cost_month_of_matched (settings : gmap string pyval) (s : string) :
  settings !! "cost_calc_month" = Some (VStr s) ->
  DAY_OF_MONTH_SCHEDULE_MATCH s = true ->
  string_or_absent (settings !! "cost_calc_year") ->
  exists n r,
    py_int s = Ok n
    /\ check_cost_calc_requested settings = Ok r
    /\ start_schedule_task r = true
    /\ cost_month r = Some (if (1 <=? n) && (n <=? 12) then n else 1).
Proof.
  intros Hs Hm Hy.
  destruct (check_month_parameter_matched s Hm) as (n & Hn & _ & Hc).
  exists n. rewrite check_cost_calc_requested_unfold, Hs, Hm, Hc.
  destruct (settings !! "cost_calc_day") as [vd|]; simpl;
    (destruct (settings !! "cost_calc_year") as [[| | | |sy]|];
     simpl in Hy |- *; try done;
     [destruct (DATE_OF_YEAR_SCHEDULE_MATCH sy) eqn:Hym;
      [destruct (check_year_parameter_matched sy Hym) as (dd & mm & ->)|]|];
     simpl; eauto).
Qed.

(** ** The configuration readers *)

Lemma on_file_not_found_raises {A} (fallback : A) (w : world) :
  configuration_failed_message_send w !! KeyClass FileNotFoundError = None ->
  on_file_not_found fallback w = (Raise KeyError, w).
Proof.
  intros H. unfold on_file_not_found, get_flag, getitem, mbind, M_bind.
  by rewrite H.
Qed.

Lemma on_value_error_raises {A} (fallback : A) (w : world) :
  configuration_failed_message_send w !! KeyClass ValueError = None ->
  on_value_error fallback w = (Raise KeyError, w).
Proof.
  intros H. unfold on_value_error, get_flag, getitem, mbind, M_bind.
  by rewrite H.
Qed.

(** With no configuration file, the price lookup ends in the [KeyError]
    of the flag lookup, in every state whose flags have no class key. *)
Lemma check_cost_config_missing (e : env) (w : world) :
  config e = ConfigMissing ->
  configuration_failed_message_send w !! KeyClass FileNotFoundError = None ->
  check_cost_config e w = (Raise KeyError, w).
Proof.
  intros Hc Hf.
  unfold check_cost_config, try_except, load_config, mbind, M_bind.
  rewrite Hc. simpl. by apply on_file_not_found_raises.
Qed.

Lemma check_cost_calc_request_time_missing (e : env) (w : world) :
  config e = ConfigMissing ->
  configuration_failed_message_send w !! KeyClass FileNotFoundError = None ->
  check_cost_calc_request_time e w = (Raise KeyError, w).
Proof.
  intros Hc Hf.
  unfold check_cost_calc_request_time, try_except, load_config, mbind, M_bind.
  rewrite Hc. simpl. by apply on_file_not_found_raises.
Qed.

(** The same for a price on which [float] raises [ValueError]. *)
Lemma check_cost_config_unparseable (e : env) (w : world)
    (data : gmap string (gmap string pyval)) (general : gmap string pyval)
    (s : string) :
  config e = ConfigData data ->
  data !! "general" = Some general ->
  general !! "price_kwh" = Some (VStr s) ->
  float_of_string e (replace_char "," "." s) = None ->
  configuration_failed_message_send w !! KeyClass ValueError = None ->
  check_cost_config e w = (Raise KeyError, w).
Proof.
  intros Hc Hg Hp Hfl Hf.
  unfold check_cost_config, try_except, load_config, mbind, M_bind, lift,
    getitem, py_float, raise, mret, M_ret.
  rewrite Hc, contains_lookup, Hg. simpl. rewrite contains_lookup, Hp. simpl.
  rewrite Hfl. simpl. by apply on_value_error_raises.
Qed.

(** A float price in the configuration is returned rounded to three
    decimals, in every state. *)
Lemma price_is_float (e : env) (data : gmap string (gmap string pyval))
    (general : gmap string pyval) (q : Q) :
  config e = ConfigData data ->
  data !! "general" = Some general ->
  general !! "price_kwh" = Some (VFloat q) ->
  price_is e (py_round q 3).
Proof.
  intros Hc Hg Hp w.
  unfold check_cost_config, try_except, load_config, mbind, M_bind, lift,
    getitem, py_float, raise, mret, M_ret.
  rewrite Hc, contains_lookup, Hg. simpl. rewrite contains_lookup, Hp.
  reflexivity.
Qed.

(** C2: with no configuration file, and with a price that is not a number,
    [check_cost_config] raises [KeyError] instead of returning 0.30, and
    [check_cost_calc_request_time] raises it instead of returning "00:00";
    no warning is written and the flags stay as they were. *)
Theorem configuration_defect_raises_key_error :
  check_cost_config env_no_config initial_world
  = (Raise KeyError, initial_world)
  /\ check_cost_config env_bad_price initial_world
     = (Raise KeyError, initial_world)
  /\ check_cost_calc_request_time env_no_config initial_world
     = (Raise KeyError, initial_world).
Proof.
  split_and!.
  - by apply check_cost_config_missing.
  - by eapply check_cost_config_unparseable.
  - by apply check_cost_calc_request_time_missing.
Qed.

(** ** The aggregator *)

Lemma truediv_ok (a b : Q) :
  ~ (b == 0)%Q -> truediv a b = Ok (Qred (a / b)).
Proof.
  intros Hb. unfold truediv.
  destruct (Qeq_bool b 0) eqn:E; [|reflexivity].
  apply Qeq_bool_eq in E. contradiction.
Qed.

Lemma truediv_zero (a b : Q) :
  (b == 0)%Q -> truediv a b = Raise ZeroDivisionError.
Proof.
  intros Hb. unfold truediv. apply Qeq_eq_bool in Hb. by rewrite Hb.
Qed.

Lemma len_sum_nonzero {A} (l1 l2 : list A) :
  (length l1 + length l2 <> 0)%nat -> ~ (len l1 + len l2 == 0)%Q.
Proof.
  intros Hn. unfold len. rewrite <- inject_Z_plus.
  change 0%Q with (inject_Z 0). rewrite inject_Z_injective. lia.
Qed.

Lemma Qdiv_nonzero (a b : Q) :
  ~ (a == 0)%Q -> ~ (b == 0)%Q -> ~ (a / b == 0)%Q.
Proof.
  intros Ha Hb H. apply Ha.
  rewrite <- (Qmult_div_r a b Hb), H. ring.
Qed.

Lemma expected_sample_count_nonzero (seconds : Z) (u : Q) :
  seconds <> 0 -> ~ (u == 0)%Q ->
  ~ (Qred (inject_Z seconds / u) == 0)%Q.
Proof.
  intros Hs Hu. rewrite Qred_correct. apply Qdiv_nonzero; [|done].
  change 0%Q with (inject_Z 0). rewrite inject_Z_injective. lia.
Qed.

(** The run of [cost_calc] on a window with samples: one query to the
    store, and one record under the key of the cadence. *)
Lemma cost_calc_nonempty (e : env) (device_name : string)
    (settings : gmap string pyval) (now : datetime) (delta : relativedelta)
    (w : world) (start : datetime) (p : Q) (v : pyval) (u : Q) :
  sub_relativedelta now delta = Ok start ->
  price_is e p ->
  let q := mk_query device_name (strftime start) (strftime now) in
  let ok := List.filter fetch_success (fetch_measurements e q) in
  let bad :=
    List.filter (fun m => negb (fetch_success m)) (fetch_measurements e q) in
  (length ok + length bad <> 0)%nat ->
  settings !! "update_time" = Some v ->
  as_number v = Ok u ->
  ~ (u == 0)%Q ->
  total_seconds_between now start <> 0 ->
  exists data,
    cost_calc e device_name settings now delta w
    = (Ok tt, match cadence_suffix delta with
              | Some suffix =>
                  append_cost (device_name +:+ suffix) data (append_query q w)
              | None => append_query q w
              end)
    /\ start_date data = strftime start
    /\ end_date data = strftime now
    /\ sum_of_energy data = py_round (sum_energy_wh ok / 1000) 2
    /\ (total_cost data == sum_of_energy data * p)%Q
    /\ cost_kwh data = p
    /\ (error_rate_one data == 100 * len bad / (len ok + len bad))%Q
    /\ (error_rate_two data
        == 100 * (expected_sample_count (total_seconds_between now start) u
                  - len ok)
           / expected_sample_count (total_seconds_between now start) u)%Q.
Proof.
  intros Hstart Hprice q ok bad Hne Hv Hu Hu0 Hsec.
  pose proof (len_sum_nonzero ok bad Hne) as Hlen.
  pose proof (expected_sample_count_nonzero _ u Hsec Hu0) as Hmax.
  eexists. split.
  - unfold cost_calc, mbind, M_bind, lift, do_fetch.
    rewrite Hstart. fold q. fold ok. fold bad. rewrite (Hprice _).
    destruct (Nat.eqb_spec (length ok + length bad) 0) as [|_]; [done|].
    unfold getitem. rewrite Hv. simpl. rewrite Hu.
    rewrite (truediv_ok _ u Hu0), (truediv_ok _ _ Hlen), (truediv_ok _ _ Hmax).
    unfold cadence_suffix, cost_logging, mret, M_ret.
    destruct (days delta =? 1); [reflexivity|].
    destruct (months delta =? 1); [reflexivity|].
    destruct (years delta =? 1); reflexivity.
  - simpl. unfold expected_sample_count.
    rewrite !Qred_correct. split_and!; try reflexivity.
    + field. exact Hlen.
    + field. split; [exact Hu0|].
      change 0%Q with (inject_Z 0). rewrite inject_Z_injective. exact Hsec.
Qed.

(** ** Calendar arithmetic of the windows *)

(** One month before March 31 is the last day of February; one year
    before February 29 is February 28. *)
Example sub_relativedelta_month_end :
  sub_relativedelta (mk_datetime 2024 3 31 10 0 0) (mk_relativedelta 0 1 0)
  = Ok (mk_datetime 2024 2 29 10 0 0)
  /\ sub_relativedelta (mk_datetime 2023 3 31 10 0 0) (mk_relativedelta 0 1 0)
     = Ok (mk_datetime 2023 2 28 10 0 0)
  /\ sub_relativedelta (mk_datetime 2024 2 29 10 0 0) (mk_relativedelta 1 0 0)
     = Ok (mk_datetime 2023 2 28 10 0 0).
Proof. repeat split. Qed.

(** Ordinals and dates convert back and forth. *)
Example ordinal_round_trip :
  ord_to_ymd (ymd_to_ord 2024 2 29) = (2024, 2, 29)
  /\ ord_to_ymd (ymd_to_ord 2024 12 31) = (2024, 12, 31)
  /\ ord_to_ymd (ymd_to_ord 1900 3 1) = (1900, 3, 1)
  /\ ymd_to_ord 1 1 1 = 1
  /\ ymd_to_ord 9999 12 31 = MAXORDINAL.
Proof. repeat split. Qed.

Lemma replace_valid (dt : datetime) (y m d : Z) :
  check_date_fields y m d = true ->
  replace (Some y) (Some m) (Some d) dt
  = Ok (mk_datetime y m d (hour dt) (minute dt) (second dt)).
Proof. intros H. unfold replace. simpl. by rewrite H. Qed.

Lemma add_days_zero (dt : datetime) :
  check_date_fields (year dt) (month dt) (day dt) = true ->
  add_days dt (- 0) = Ok dt.
Proof.
  intros (Hy & Hm & Hd)%check_date_fields_spec. unfold add_days.
  change (- 0) with 0. rewrite Z.add_0_r.
  rewrite normalize_in_range by lia. by destruct dt.
Qed.

Lemma sub_relativedelta_day (now : datetime) :
  valid_datetime now = true -> 2 <= year now ->
  sub_relativedelta now (cadence_delta Daily) = Ok (one_day_before now).
Proof.
  intros Hv Hy2. destruct (valid_datetime_date now Hv) as (Hy & Hm & Hd).
  unfold sub_relativedelta, cadence_delta. simpl.
  change (- 0) with 0. change (- (1)) with (-1). rewrite Z.add_0_r.
  rewrite Z.min_r by lia. rewrite replace_valid
    by (apply check_date_fields_spec; lia).
  simpl. unfold add_days, one_day_before. simpl.
  destruct (Z.ltb_spec 1 (day now)).
  - rewrite normalize_in_range by lia. reflexivity.
  - replace (day now + -1) with 0 by lia.
    destruct (Z.ltb_spec 1 (month now)).
    + rewrite normalize_previous_day by lia. reflexivity.
    + replace (month now) with 1 by lia. unfold normalize_y_m_d. simpl.
      unfold MINYEAR, MAXYEAR.
      destruct (Z.leb_spec 1 (year now - 1)); [|lia].
      destruct (Z.leb_spec (year now - 1) 9999); [|lia]. reflexivity.
Qed.

Lemma sub_relativedelta_month (now : datetime) :
  valid_datetime now = true -> 2 <= year now ->
  sub_relativedelta now (cadence_delta Monthly) = Ok (one_month_before now).
Proof.
  intros Hv Hy2. destruct (valid_datetime_date now Hv) as (Hy & Hm & Hd).
  unfold sub_relativedelta, cadence_delta, one_month_before. simpl.
  change (- 0) with 0. change (- (1)) with (-1). rewrite Z.add_0_r.
  destruct (Z.ltb_spec 12 (month now + -1)); [lia|].
  destruct (Z.eqb_spec (month now) 1) as [H1 | H1];
    (destruct (Z.ltb_spec (month now + -1) 1); [|try lia]); try lia; simpl.
  - replace (month now + -1 + 12) with 12 by lia.
    set (d := Z.min (days_in_month (year now - 1) 12) (day now)).
    assert (Hc : check_date_fields (year now - 1) 12 d = true).
    { apply check_date_fields_spec. unfold d.
      replace (days_in_month (year now - 1) 12) with 31 by reflexivity. lia. }
    rewrite (replace_valid _ _ _ _ Hc). simpl.
    by rewrite add_days_zero.
  - replace (month now + -1) with (month now - 1) by lia.
    set (d := Z.min (days_in_month (year now) (month now - 1)) (day now)).
    assert (Hc : check_date_fields (year now) (month now - 1) d = true).
    { apply check_date_fields_spec. unfold d.
      pose proof (days_in_month_bounds (year now) (month now - 1)). lia. }
    rewrite (replace_valid _ _ _ _ Hc). simpl.
    by rewrite add_days_zero.
Qed.

Lemma sub_relativedelta_year (now : datetime) :
  valid_datetime now = true -> 2 <= year now ->
  sub_relativedelta now (cadence_delta Yearly) = Ok (one_year_before now).
Proof.
  intros Hv Hy2. destruct (valid_datetime_date now Hv) as (Hy & Hm & Hd).
  unfold sub_relativedelta, cadence_delta, one_year_before. simpl.
  change (- 0) with 0. change (- (1)) with (-1).
  replace (year now + -1) with (year now - 1) by lia.
  set (d := Z.min (days_in_month (year now - 1) (month now)) (day now)).
  assert (Hc : check_date_fields (year now - 1) (month now) d = true).
  { apply check_date_fields_spec. unfold d.
    pose proof (days_in_month_bounds (year now - 1) (month now)). lia. }
  rewrite (replace_valid _ _ _ _ Hc). simpl.
  by rewrite add_days_zero.
Qed.

Lemma sub_relativedelta_cadence (now : datetime) (c : cadence) :
  valid_datetime now = true -> 2 <= year now ->
  sub_relativedelta now (cadence_delta c) = Ok (window_start now c).
Proof.
  destruct c; [apply sub_relativedelta_day | apply sub_relativedelta_month
              | apply sub_relativedelta_year].
Qed.

Lemma days_before_year_prev y :
  days_before_year y
  = days_before_year (y - 1) + 365 + (if is_leap (y - 1) then 1 else 0).
Proof.
  rewrite <- days_before_year_next. f_equal. lia.
Qed.

Lemma days_before_month_years y y' m :
  days_before_month y' m - 1 <= days_before_month y m.
Proof.
  unfold days_before_month.
  destruct (2 <? m); simpl; destruct (is_leap y), (is_leap y'); lia.
Qed.

Lemma ord_one_day_before (now : datetime) :
  valid_datetime now = true ->
  let s := one_day_before now in
  ymd_to_ord (year s) (month s) (day s)
  = ymd_to_ord (year now) (month now) (day now) - 1.
Proof.
  intros Hv. destruct (valid_datetime_date now Hv) as (Hy & Hm & Hd).
  unfold one_day_before.
  destruct (Z.ltb_spec 1 (day now)); simpl.
  - unfold ymd_to_ord. lia.
  - destruct (Z.ltb_spec 1 (month now)); simpl.
    + pose proof (month_end_ordinal (year now) (month now - 1)) as H1.
      unfold first_of_next_month_ord in H1.
      destruct (Z.eqb_spec (month now - 1) 12); [lia|].
      replace (month now - 1 + 1) with (month now) in H1 by lia.
      unfold ymd_to_ord in *. lia.
    + pose proof (month_end_ordinal (year now - 1) 12) as H1.
      unfold first_of_next_month_ord in H1. simpl in H1.
      replace (year now - 1 + 1) with (year now) in H1 by lia.
      replace (days_in_month (year now - 1) 12) with 31 in H1
        by reflexivity.
      replace (month now) with 1 by lia. unfold ymd_to_ord in *. lia.
Qed.

Lemma ord_one_month_before (now : datetime) :
  valid_datetime now = true ->
  let s := one_month_before now in
  ymd_to_ord (year s) (month s) (day s)
  < ymd_to_ord (year now) (month now) (day now).
Proof.
  intros Hv. destruct (valid_datetime_date now Hv) as (Hy & Hm & Hd).
  unfold one_month_before. simpl.
  destruct (Z.eqb_spec (month now) 1) as [H1 | H1].
  - pose proof (month_end_ordinal (year now - 1) 12) as Hend.
    unfold first_of_next_month_ord in Hend. simpl in Hend.
    replace (year now - 1 + 1) with (year now) in Hend by lia.
    replace (days_in_month (year now - 1) 12) with 31 in * by reflexivity.
    rewrite H1. unfold ymd_to_ord in *. lia.
  - pose proof (month_end_ordinal (year now) (month now - 1)) as Hend.
    unfold first_of_next_month_ord in Hend.
    destruct (Z.eqb_spec (month now - 1) 12); [lia|].
    replace (month now - 1 + 1) with (month now) in Hend by lia.
    unfold ymd_to_ord in *. lia.
Qed.

Lemma ord_one_year_before (now : datetime) :
  valid_datetime now = true ->
  let s := one_year_before now in
  ymd_to_ord (year s) (month s) (day s)
  < ymd_to_ord (year now) (month now) (day now).
Proof.
  intros Hv. destruct (valid_datetime_date now Hv) as (Hy & Hm & Hd).
  unfold one_year_before. simpl. unfold ymd_to_ord.
  rewrite (days_before_year_prev (year now)).
  pose proof (days_before_month_years (year now) (year now - 1) (month now)).
  destruct (is_leap (year now - 1)); lia.
Qed.

(** Every window of the dispatcher has a positive length. *)
Lemma window_positive (now : datetime) (c : cadence) :
  valid_datetime now = true ->
  0 < total_seconds_between now (window_start now c).
Proof.
  intros Hv. unfold total_seconds_between.
  assert (Hord : let s := window_start now c in
                 ymd_to_ord (year s) (month s) (day s)
                 < ymd_to_ord (year now) (month now) (day now)).
  { destruct c; simpl.
    - pose proof (ord_one_day_before now Hv). simpl in *. lia.
    - by apply ord_one_month_before.
    - by apply ord_one_year_before. }
  assert (Htime : let s := window_start now c in
                  hour s = hour now /\ minute s = minute now
                  /\ second s = second now).
  { destruct c; simpl; unfold one_day_before;
      repeat match goal with |- context [if ?b then _ else _] =>
                               destruct b end; auto. }
  simpl in Hord, Htime. destruct Htime as (-> & -> & ->). lia.
Qed.

(** A daily window lasts 86400 seconds. *)
Lemma daily_window_seconds (now : datetime) :
  valid_datetime now = true ->
  total_seconds_between now (window_start now Daily) = 86400.
Proof.
  intros Hv. unfold total_seconds_between.
  pose proof (ord_one_day_before now Hv) as H. simpl in H.
  simpl window_start. rewrite H.
  unfold one_day_before;
    repeat match goal with |- context [if ?b then _ else _] =>
                             destruct b end; simpl; lia.
Qed.

(** ** The aggregated record *)



Lemma price_is_030 (e : env) : config e = price_030 -> price_is e (3 # 10).
Proof.
  intros H. by apply (price_is_float e _ {[ "price_kwh" := VFloat (3 # 10) ]}
                        (3 # 10) H).
Qed.

(** The same samples with a configuration file that holds the price 0.30:
    the record has 8 kWh, a total cost of 2.40, a first error rate of 20. *)
Example cost_calc_scenario :
  cost_log (snd (cost_calc env_scenario "dev" settings_minute example_now
                           (cadence_delta Daily) initial_world))
  = [("dev_day"%string,
      mk_cost_data "2024-03-30 10:00:00" "2024-03-31 10:00:00"
                   8 (12 # 5) (3 # 10) 20 (895 # 9))].
Proof. reflexivity. Qed.


(** The same samples with a configuration file that holds the price 0.30:
    the second error rate of the record is -50. *)
Example cost_calc_oversampled :
  map (fun entry => (entry.1, error_rate_two entry.2))
      (cost_log (snd (cost_calc env_three_samples "dev" settings_half_day
                                example_now (cadence_delta Daily)
                                initial_world)))
  = [("dev_day"%string, (-50)%Q)].
Proof. reflexivity. Qed.


(** A zero update interval makes the division of line 140 raise. *)
Lemma cost_calc_zero_update_time (e : env) (device_name : string)
    (settings : gmap string pyval) (now : datetime) (delta : relativedelta)
    (w : world) (start : datetime) (p : Q) (v : pyval) (u : Q) :
  sub_relativedelta now delta = Ok start ->
  price_is e p ->
  let q := mk_query device_name (strftime start) (strftime now) in
  let ok := List.filter fetch_success (fetch_measurements e q) in
  let bad :=
    List.filter (fun m => negb (fetch_success m)) (fetch_measurements e q) in
  (length ok + length bad <> 0)%nat ->
  settings !! "update_time" = Some v ->
  as_number v = Ok u ->
  (u == 0)%Q ->
  cost_calc e device_name settings now delta w
  = (Raise ZeroDivisionError, append_query q w).
Proof.
  intros Hstart Hprice q ok bad Hne Hv Hu Hu0.
  unfold cost_calc, mbind, M_bind, lift, do_fetch.
  rewrite Hstart. fold q. fold ok. fold bad. rewrite (Hprice _).
  destruct (Nat.eqb_spec (length ok + length bad) 0) as [|_]; [done|].
  unfold getitem. rewrite Hv. simpl. rewrite Hu.
  by rewrite (truediv_zero _ u Hu0).
Qed.


(** The run of [cost_calc] on a window without samples: after the query,
    the price lookup decides the outcome, and nothing is written to the
    sink. *)
Lemma cost_calc_empty (e : env) (device_name : string)
    (settings : gmap string pyval) (now : datetime) (delta : relativedelta)
    (w : world) (start : datetime) :
  sub_relativedelta now delta = Ok start ->
  let q := mk_query device_name (strftime start) (strftime now) in
  let ok := List.filter fetch_success (fetch_measurements e q) in
  let bad :=
    List.filter (fun m => negb (fetch_success m)) (fetch_measurements e q) in
  (length ok + length bad = 0)%nat ->
  cost_calc e device_name settings now delta w
  = match check_cost_config e (append_query q w) with
    | (Ok _, w') => (Ok tt, w')
    | (Raise ex, w') => (Raise ex, w')
    end.
Proof.
  intros Hstart q ok bad Hempty.
  unfold cost_calc, mbind, M_bind, lift, do_fetch.
  rewrite Hstart. fold q. fold ok. fold bad.
  destruct (check_cost_config e (append_query q w)) as [[price | ex] w'];
    [|reflexivity].
  destruct (Nat.eqb_spec (length ok + length bad) 0); [reflexivity | done].
Qed.

(** With a price lookup that returns, a window without samples ends the
    call normally with no record. *)
Lemma cost_calc_empty_returns (e : env) (device_name : string)
    (settings : gmap string pyval) (now : datetime) (delta : relativedelta)
    (w : world) (start : datetime) (p : Q) :
  sub_relativedelta now delta = Ok start ->
  price_is e p ->
  let q := mk_query device_name (strftime start) (strftime now) in
  fetch_measurements e q = [] ->
  cost_calc e device_name settings now delta w = (Ok tt, append_query q w).
Proof.
  intros Hstart Hprice q Hfetch.
  rewrite (cost_calc_empty e device_name settings now delta w start Hstart)
    by (fold q; by rewrite Hfetch).
  fold q. by rewrite (Hprice _).
Qed.



(** C9: with no samples in the window and no configuration file,
    [cost_calc] does not return: the price lookup, made before the test
    for an empty window, raises [KeyError]; no record is written. *)
Theorem cost_calc_empty_window_raises :
  cost_calc env_no_config "dev" settings_minute example_now
            (cadence_delta Daily) initial_world
  = (Raise KeyError,
     append_query (window_query "dev" example_now Daily) initial_world).
Proof.
  rewrite (cost_calc_empty env_no_config "dev" settings_minute example_now
             (cadence_delta Daily) initial_world
             (window_start example_now Daily)); [|reflexivity..].
  by rewrite check_cost_config_missing.
Qed.

(** ** The dispatcher *)

Lemma partition_length (l : list measurement) :
  (length (List.filter fetch_success l)
   + length (List.filter (fun m => negb (fetch_success m)) l))%nat
  = length l.
Proof.
  induction l as [|m l IH]; [reflexivity|].
  simpl. destruct (fetch_success m); simpl; lia.
Qed.

Lemma cadence_suffix_delta (device_name : string) (c : cadence) :
  exists suffix,
    cadence_suffix (cadence_delta c) = Some suffix
    /\ device_name +:+ suffix = cadence_key device_name c.
Proof. destruct c; eexists; split; reflexivity. Qed.

(** One aggregation of the dispatcher, in a setting where the price lookup
    returns and the update interval is a nonzero number. *)
Lemma cost_calc_cadence (e : env) (device_name : string)
    (settings : gmap string pyval) (now : datetime) (c : cadence)
    (w : world) (p : Q) (v : pyval) (u : Q) :
  valid_datetime now = true -> 2 <= year now ->
  price_is e p ->
  settings !! "update_time" = Some v -> as_number v = Ok u -> ~ (u == 0)%Q ->
  let q := window_query device_name now c in
  if has_samples e q then
    exists data,
      cost_calc e device_name settings now (cadence_delta c) w
      = (Ok tt, append_cost (cadence_key device_name c) data
                  (append_query q w))
      /\ record_of_window device_name now c
           (cadence_key device_name c, data)
  else
    cost_calc e device_name settings now (cadence_delta c) w
    = (Ok tt, append_query q w).
Proof.
  intros Hv Hy Hprice Hupd Hu Hu0 q.
  pose proof (sub_relativedelta_cadence now c Hv Hy) as Hstart.
  pose proof (window_positive now c Hv) as Hpos.
  unfold has_samples.
  destruct (Nat.eqb_spec (length (fetch_measurements e q)) 0) as [H0 | H0];
    simpl.
  - apply (cost_calc_empty_returns e device_name settings now _ w _ p Hstart
             Hprice).
    by apply nil_length_inv.
  - destruct (cadence_suffix_delta device_name c) as (suffix & Hs & Hkey).
    destruct (cost_calc_nonempty e device_name settings now (cadence_delta c)
                w (window_start now c) p v u Hstart Hprice)
      as (data & Hrun & Hsd & Hed & _); try done.
    + rewrite partition_length. exact H0.
    + lia.
    + rewrite Hs, Hkey in Hrun. exists data. by split.
Qed.

(** The effect of a list of aggregations: one query per cadence, in order,
    and one record per cadence whose window has samples. *)
Lemma run_cadences_effect (e : env) (device_name : string)
    (settings : gmap string pyval) (now : datetime) (p : Q) (v : pyval)
    (u : Q) (cs : list cadence) :
  valid_datetime now = true -> 2 <= year now ->
  price_is e p ->
  settings !! "update_time" = Some v -> as_number v = Ok u -> ~ (u == 0)%Q ->
  forall w, exists w' recs,
    run_cadences e device_name settings now cs w = (Ok tt, w')
    /\ clock_reads w' = clock_reads w
    /\ queries w' = queries w ++ map (window_query device_name now) cs
    /\ cost_log w' = cost_log w ++ recs
    /\ Forall2 (record_of_window device_name now)
         (List.filter
            (fun c => has_samples e (window_query device_name now c)) cs)
         recs.
Proof.
  intros Hv Hy Hprice Hupd Hu Hu0.
  induction cs as [|c cs IH]; intros w.
  - exists w, []. simpl. rewrite !app_nil_r. by split_and!.
  - pose proof (cost_calc_cadence e device_name settings now c w p v u
                  Hv Hy Hprice Hupd Hu Hu0) as Hc.
    simpl in Hc. simpl run_cadences. unfold mbind, M_bind. simpl List.filter.
    destruct (has_samples e (window_query device_name now c)).
    + destruct Hc as (data & -> & Hrec).
      destruct (IH (append_cost (cadence_key device_name c) data
                      (append_query (window_query device_name now c) w)))
        as (w' & recs & -> & Hclock & Hq & Hlog & Hall).
      exists w', ((cadence_key device_name c, data) :: recs).
      simpl in *. rewrite Hq, Hlog, <- !app_assoc. split_and!; try done.
      by constructor.
    + rewrite Hc.
      destruct (IH (append_query (window_query device_name now c) w))
        as (w' & recs & -> & Hclock & Hq & Hlog & Hall).
      exists w', recs. simpl in *. rewrite Hq, <- !app_assoc.
      by split_and!.
Qed.

Lemma check_matched_day_total (now : datetime) (target_day : Z) :
  valid_datetime now = true ->
  exists b, check_matched_day now target_day = Ok b.
Proof.
  intros Hv. unfold check_matched_day. rewrite (last_day_of_month_eq now Hv).
  simpl. repeat match goal with |- context [if ?b then _ else _] =>
                                  destruct b end; eauto.
Qed.

(** The dispatcher reads the clock once and then runs the aggregations of
    the cadences that are due at that reading. *)
Lemma cost_calc_handler_run (e : env) (device_name : string)
    (settings : gmap string pyval) (req : requested) (w : world) :
  let now := utc_clock e (clock_reads w) in
  valid_datetime now = true ->
  cost_calc_handler e device_name settings req w
  = run_cadences e device_name settings now (due_cadences req now)
      (tick_clock w).
Proof.
  intros now Hv.
  unfold cost_calc_handler, due_cadences, check_matched_day_and_month.
  unfold mbind at 1. unfold M_bind at 1. unfold utcnow. fold now.
  destruct req as [task cday cmonth cyear]. simpl.
  assert (Hm : forall t, exists b, check_matched_day now t = Ok b)
    by (intros t; by apply check_matched_day_total).
  destruct cmonth as [t|]; [destruct (Hm t) as [bm ->]|];
    (destruct cyear as [yv|];
     [destruct (Hm (yv_day yv)) as [by' ->]|]);
    destruct cday; simpl;
    try destruct bm; try destruct by'; simpl;
    try destruct (month now =? yv_month yv); simpl;
    unfold mbind, M_bind, lift, mret, M_ret;
    repeat match goal with
      | |- context [cost_calc ?a ?b ?c ?d ?f ?x] =>
          destruct (cost_calc a b c d f x) as [[[]|?] ?]; simpl
      end; reflexivity.
Qed.

Lemma append_inj_l (s a b : string) : s +:+ a = s +:+ b -> a = b.
Proof.
  induction s as [|ch s IH]; simpl; [done|].
  intros H. injection H as H. by apply IH.
Qed.

Lemma cadence_key_inj (device_name : string) (c c' : cadence) :
  cadence_key device_name c = cadence_key device_name c' -> c = c'.
Proof.
  unfold cadence_key. intros H%append_inj_l. by destruct c, c'.
Qed.

Lemma record_keys (device_name : string) (now : datetime) (c : cadence)
    (cs : list cadence) (recs : list (string * cost_data)) :
  Forall2 (record_of_window device_name now) cs recs ->
  (exists data, In (cadence_key device_name c, data) recs) <-> In c cs.
Proof.
  induction 1 as [|c0 [k d] cs recs [Hk Hd] _ IH]; simpl.
  - split; [intros [_ []] | intros []].
  - simpl in Hk. split.
    + intros [data [Heq | Hin]].
      * left. injection Heq as Heq _. rewrite Hk in Heq.
        by apply cadence_key_inj in Heq.
      * right. apply IH. eauto.
    + intros [-> | Hin].
      * exists d. left. by rewrite Hk.
      * apply IH in Hin as [data Hin]. eauto.
Qed.

Lemma due_cadences_spec (req : requested) (now : datetime) :
  (In Daily (due_cadences req now) <-> cost_day req = true)
  /\ (In Monthly (due_cadences req now)
      <-> exists target_day,
            cost_month req = Some target_day
            /\ check_matched_day now target_day = Ok true)
  /\ (In Yearly (due_cadences req now)
      <-> exists target,
            cost_year req = Some target
            /\ check_matched_day_and_month now (yv_day target)
                 (yv_month target) = Ok true).
Proof.
  unfold due_cadences. rewrite !in_app_iff.
  destruct (cost_day req);
    (destruct (cost_month req) as [t|];
     [destruct (check_matched_day now t) as [[]|] eqn:Hmd|]);
    (destruct (cost_year req) as [yv|];
     [destruct (check_matched_day_and_month now (yv_day yv) (yv_month yv))
        as [[]|] eqn:Hy|]);
    simpl; split_and!; split;
    solve [ intros; eauto
          | intros (? & ? & ?); simplify_eq; congruence
          | intuition discriminate ].
Qed.

(** On 2024-03-31 with a monthly target of 31 the target is set and
    [check_matched_day] holds, yet with no samples in the window the
    dispatcher writes no record: it only queries the store. *)
Lemma cost_calc_handler_empty_month :
  check_matched_day example_now 31 = Ok true
  /\ cost_calc_handler env_no_samples "dev" settings_minute
       (mk_requested true false (Some 31) None) initial_world
     = (Ok tt,
        append_query (window_query "dev" example_now Monthly)
                     (tick_clock initial_world))
  /\ cost_log (append_query (window_query "dev" example_now Monthly)
                            (tick_clock initial_world)) = [].
Proof. repeat split. Qed.

(** C6 (amended): for every dispatch in which the clock reading [now] is a
    valid date of year 2 or later, the price lookup returns and the update
    interval is a nonzero number: the dispatcher reads the clock once; with
    that reading it queries the store once per due cadence, for the window from
    one calendar unit before [now] to [now], and writes one record per due
    cadence whose window has samples, under the key of the device name and
    "_day", "_month" or "_year".  Daily is due when enabled, monthly exactly
    when a target is set and [check_matched_day now target] holds, yearly
    exactly when a target is set and day and month match. *)
Theorem cost_calc_handler_dispatch (e : env) (device_name : string)
    (settings : gmap string pyval) (req : requested) (w : world)
    (p : Q) (v : pyval) (u : Q) :
  let now := utc_clock e (clock_reads w) in
  valid_datetime now = true -> 2 <= year now ->
  price_is e p ->
  settings !! "update_time" = Some v -> as_number v = Ok u -> ~ (u == 0)%Q ->
  exists w' recs,
    cost_calc_handler e device_name settings req w = (Ok tt, w')
    /\ clock_reads w' = S (clock_reads w)
    /\ queries w'
       = queries w
         ++ map (window_query device_name now) (due_cadences req now)
    /\ cost_log w' = cost_log w ++ recs
    /\ Forall2 (record_of_window device_name now)
         (List.filter
            (fun c => has_samples e (window_query device_name now c))
            (due_cadences req now))
         recs
    /\ (forall c,
          (exists data, In (cadence_key device_name c, data) recs)
          <-> In c (due_cadences req now)
              /\ has_samples e (window_query device_name now c) = true)
    /\ (In Daily (due_cadences req now) <-> cost_day req = true)
    /\ (In Monthly (due_cadences req now)
        <-> exists target_day,
              cost_month req = Some target_day
              /\ check_matched_day now target_day = Ok true)
    /\ (In Yearly (due_cadences req now)
        <-> exists target,
              cost_year req = Some target
              /\ check_matched_day_and_month now (yv_day target)
                   (yv_month target) = Ok true).
Proof.
  intros now Hv Hy Hprice Hupd Hu Hu0.
  destruct (run_cadences_effect e device_name settings now p v u
              (due_cadences req now) Hv Hy Hprice Hupd Hu Hu0 (tick_clock w))
    as (w' & recs & Hrun & Hclock & Hq & Hlog & Hall).
  exists w', recs.
  rewrite (cost_calc_handler_run e device_name settings req w Hv).
  fold now. split_and!; try done.
  - intros c. rewrite (record_keys device_name now c _ recs Hall).
    rewrite filter_In. reflexivity.
  - apply due_cadences_spec.
  - apply due_cadences_spec.
  - apply due_cadences_spec.
Qed.

(** On 2024-03-31, with daily enabled and a monthly target of 31, the
    dispatcher asks for the day since 2024-03-30 and for the month since
    2024-02-29, and writes a record for each. *)
Lemma cost_calc_handler_dispatch_witness :
  exists w' recs,
    cost_calc_handler env_scenario "dev" settings_minute
      (mk_requested true true (Some 31) None) initial_world = (Ok tt, w')
    /\ clock_reads w' = 1%nat
    /\ queries w'
       = [mk_query "dev" "2024-03-30 10:00:00" "2024-03-31 10:00:00";
          mk_query "dev" "2024-02-29 10:00:00" "2024-03-31 10:00:00"]
    /\ cost_log w' = recs
    /\ map fst recs = ["dev_day"%string; "dev_month"%string].
Proof.
  destruct (cost_calc_handler_dispatch env_scenario "dev" settings_minute
              (mk_requested true true (Some 31) None) initial_world
              (3 # 10) (VInt 60) 60)
    as (w' & recs & Hrun & Hclock & Hq & Hlog & Hall & _);
    [ reflexivity | by vm_compute | by apply price_is_030 | reflexivity
    | reflexivity | by vm_compute | ].
  exists w', recs. split; [exact Hrun|]. split; [exact Hclock|].
  split; [exact Hq|]. split; [exact Hlog|].
  simpl in Hall.
  inversion Hall as [|c1 r1 l1 l1' [Hk1 _] Hall1]; subst.
  inversion Hall1 as [|c2 r2 l2 l2' [Hk2 _] Hall2]; subst.
  inversion Hall2; subst. simpl. by rewrite Hk1, Hk2.
Defined.

(** ** Rounding and the flags *)

(** At start-up the flags have the two string keys only. *)
Lemma initial_flags_no_class (c : exn) : initial_flags !! KeyClass c = None.
Proof. unfold initial_flags. by rewrite !lookup_insert_ne. Qed.

(** [round_half_even] returns an integer at distance at most one half. *)
Lemma round_half_even_close (q : Q) :
  (Qabs (q - inject_Z (round_half_even q)) <= 1 # 2)%Q.
Proof.
  pose proof (Qfloor_le q) as Hlo. pose proof (Qlt_floor q) as Hhi.
  rewrite inject_Z_plus in Hhi. change (inject_Z 1) with 1%Q in Hhi.
  unfold round_half_even. apply Qabs_Qle_condition.
  destruct (Qcompare_spec (q - inject_Z (Qfloor q)) (1 # 2)) as [He | Hl | Hg].
  - destruct (Z.even (Qfloor q)); rewrite ?inject_Z_plus;
      change (inject_Z 1) with 1%Q; split; lra.
  - split; lra.
  - rewrite inject_Z_plus. change (inject_Z 1) with 1%Q. split; lra.
Qed.

(** A tie goes to the even neighbour. *)
Lemma round_half_even_tie (k : Z) :
  round_half_even (inject_Z k + (1 # 2)) = if Z.even k then k else k + 1.
Proof.
  unfold round_half_even.
  assert (Hf : Qfloor (inject_Z k + (1 # 2)) = k).
  { pose proof (Qfloor_le (inject_Z k + (1 # 2))) as Hlo.
    pose proof (Qlt_floor (inject_Z k + (1 # 2))) as Hhi.
    set (f := Qfloor (inject_Z k + (1 # 2))) in *.
    assert (f < k + 1).
    { rewrite Zlt_Qlt, inject_Z_plus.
      change (inject_Z 1) with 1%Q. lra. }
    assert (k < f + 1).
    { rewrite Zlt_Qlt, inject_Z_plus. rewrite inject_Z_plus in Hhi.
      change (inject_Z 1) with 1%Q in *. lra. }
    lia. }
  rewrite Hf.
  destruct (Qcompare_spec (inject_Z k + (1 # 2) - inject_Z k) (1 # 2));
    [reflexivity | lra | lra].
Qed.

(** In a state whose flags have no class key, the price lookup leaves the
    state as it is, whatever the configuration: the flags are never set
    and no warning is ever written. *)
Lemma check_cost_config_keeps_state (e : env) (w : world) :
  configuration_failed_message_send w !! KeyClass FileNotFoundError = None ->
  configuration_failed_message_send w !! KeyClass ValueError = None ->
  snd (check_cost_config e w) = w.
Proof.
  intros Hf Hv.
  pose proof (on_file_not_found_raises (3 # 10)%Q w Hf) as Hfnf.
  pose proof (on_value_error_raises (3 # 10)%Q w Hv) as Hve.
  unfold check_cost_config, try_except, load_config, mbind, M_bind, lift,
    getitem, py_float, raise, mret, M_ret.
  destruct (config e) as [| |data]; simpl; [by rewrite Hfnf | by rewrite Hve|].
  rewrite contains_lookup.
  destruct (data !! "general") as [general|]; simpl; [|done].
  rewrite contains_lookup.
  destruct (general !! "price_kwh") as [[| | | |s]|]; simpl; try done.
  destruct (float_of_string e (replace_char "," "." s)); simpl;
    [done | by rewrite Hve].
Qed.

(** ** Every record that is written *)

Lemma on_file_not_found_cost_log {A} (fallback : A) (w : world) :
  cost_log (snd (on_file_not_found fallback w)) = cost_log w.
Proof.
  unfold on_file_not_found, get_flag, getitem, mbind, M_bind.
  destruct (configuration_failed_message_send w !! _) as [[]|]; reflexivity.
Qed.

Lemma on_value_error_cost_log {A} (fallback : A) (w : world) :
  cost_log (snd (on_value_error fallback w)) = cost_log w.
Proof.
  unfold on_value_error, get_flag, getitem, mbind, M_bind.
  destruct (configuration_failed_message_send w !! _) as [[]|]; reflexivity.
Qed.

(** The price lookup never writes to the sink. *)
Lemma check_cost_config_cost_log (e : env) (w : world) :
  cost_log (snd (check_cost_config e w)) = cost_log w.
Proof.
  pose proof (on_file_not_found_cost_log (3 # 10)%Q w) as Hfnf.
  pose proof (on_value_error_cost_log (3 # 10)%Q w) as Hve.
  unfold check_cost_config, try_except, load_config, mbind, M_bind, lift,
    getitem, py_float, raise, mret, M_ret.
  destruct (config e) as [| |data]; simpl; [done | done |].
  rewrite contains_lookup.
  destruct (data !! "general") as [general|]; simpl; [|done].
  rewrite contains_lookup.
  destruct (general !! "price_kwh") as [[| | | |s]|]; simpl; try done.
  destruct (float_of_string e (replace_char "," "." s)); simpl; done.
Qed.

Lemma truediv_inv (a b x : Q) :
  truediv a b = Ok x -> ~ (b == 0)%Q /\ x = Qred (a / b).
Proof.
  unfold truediv. destruct (Qeq_bool b 0) eqn:E; [done|].
  intros [= <-]. split; [|done]. by apply Qeq_bool_neq.
Qed.

(** Whatever the configuration, the settings and the window: a run of
    [cost_calc] writes nothing to the sink, or it returns after writing
    one record, and the fields of that record follow the formulas, the
    price being the one the lookup returned. *)
Lemma cost_calc_record_sound (e : env) (device_name : string)
    (settings : gmap string pyval) (now : datetime) (delta : relativedelta)
    (w w' : world) (r : result unit) :
  cost_calc e device_name settings now delta w = (r, w') ->
  cost_log w' = cost_log w
  \/ exists start suffix data u,
       sub_relativedelta now delta = Ok start
       /\ cadence_suffix delta = Some suffix
       /\ r = Ok tt
       /\ cost_log w' = cost_log w ++ [(device_name +:+ suffix, data)]
       /\ (getitem settings "update_time" ≫= as_number) = Ok u
       /\ let q := mk_query device_name (strftime start) (strftime now) in
          let ok := List.filter fetch_success (fetch_measurements e q) in
          let bad := List.filter (fun m => negb (fetch_success m))
                       (fetch_measurements e q) in
          let expected :=
            expected_sample_count (total_seconds_between now start) u in
          fst (check_cost_config e (append_query q w)) = Ok (cost_kwh data)
          /\ start_date data = strftime start
          /\ end_date data = strftime now
          /\ sum_of_energy data = py_round (sum_energy_wh ok / 1000) 2
          /\ (total_cost data == sum_of_energy data * cost_kwh data)%Q
          /\ (error_rate_one data == 100 * len bad / (len ok + len bad))%Q
          /\ (error_rate_two data == 100 * (expected - len ok) / expected)%Q.
Proof.
  unfold cost_calc, mbind at 1, M_bind at 1, lift at 1.
  destruct (sub_relativedelta now delta) as [start|ex];
    [|intros [= <- <-]; by left].
  unfold mbind at 1, M_bind at 1, do_fetch.
  set (q := mk_query device_name (strftime start) (strftime now)).
  set (ok := List.filter fetch_success (fetch_measurements e q)).
  set (bad := List.filter _ (fetch_measurements e q)).
  unfold mbind at 1, M_bind at 1.
  pose proof (check_cost_config_cost_log e (append_query q w)) as Hlog.
  destruct (check_cost_config e (append_query q w)) as [[price|ex] w1] eqn:Hcfg;
    simpl in Hlog; [|intros [= <- <-]; by left].
  destruct (length ok + length bad =? 0)%nat; [intros [= <- <-]; by left|].
  unfold mbind at 1, M_bind at 1, lift at 1.
  destruct (getitem settings "update_time" ≫= as_number) as [u|ex] eqn:Hu;
    [|intros [= <- <-]; by left].
  unfold mbind at 1, M_bind at 1, lift at 1.
  destruct (truediv _ u) as [max_values|ex] eqn:Hmax;
    [|intros [= <- <-]; by left].
  apply truediv_inv in Hmax as [Hu0 ->].
  unfold mbind at 1, M_bind at 1, lift at 1.
  destruct (truediv (len bad * 100) _) as [rate_one|ex] eqn:Hone;
    [|intros [= <- <-]; by left].
  apply truediv_inv in Hone as [Hlen ->].
  unfold mbind at 1, M_bind at 1, lift at 1.
  destruct (truediv _ (Qred _)) as [rate_two|ex] eqn:Htwo;
    [|intros [= <- <-]; by left].
  apply truediv_inv in Htwo as [Hexp ->].
  unfold cadence_suffix, cost_logging, mret, M_ret.
  set (data :=
         mk_cost_data (strftime start) (strftime now)
           (py_round (sum_energy_wh ok / 1000) 2)
           (Qred (py_round (sum_energy_wh ok / 1000) 2 * price)) price
           (Qred (len bad * 100 / (len ok + len bad)))
           (Qred ((Qred (inject_Z (total_seconds_between now start) / u)
                   - len ok) * 100
                  / Qred (inject_Z (total_seconds_between now start) / u)))).
  assert (Hfields :
      (total_cost data == sum_of_energy data * cost_kwh data)%Q
      /\ (error_rate_one data == 100 * len bad / (len ok + len bad))%Q
      /\ (error_rate_two data
          == 100 * (expected_sample_count (total_seconds_between now start) u
                    - len ok)
             / expected_sample_count (total_seconds_between now start) u)%Q).
  { unfold data, expected_sample_count. simpl.
    rewrite !Qred_correct in *. split_and!; try reflexivity.
    - field. exact Hlen.
    - field. split; [exact Hu0|].
      intros H0. apply Hexp. rewrite H0. unfold Qdiv. ring. }
  destruct Hfields as (Hcost & Hrate1 & Hrate2).
  destruct (days delta =? 1);
    [|destruct (months delta =? 1); [|destruct (years delta =? 1)]];
    intros [= <- <-]; [ | | | by left];
    right; eexists start, _, data, u; cbv zeta;
    (split_and!;
     [ reflexivity | reflexivity | reflexivity
     | unfold append_cost; cbn [cost_log]; rewrite Hlog; reflexivity
     | reflexivity
     | change (fst (check_cost_config e (append_query q w))
               = Ok (cost_kwh data));
       rewrite Hcfg; reflexivity
     | reflexivity | reflexivity | reflexivity
     | exact Hcost | exact Hrate1 | exact Hrate2 ]).
Qed.

(** * Further properties of the code *)

(** ** The date matcher *)

(** X1: for every valid date, [check_matched_day_and_month] returns true
    exactly when the month of the date is the target month and the day
    rule of [check_matched_day] holds; a different month never matches. *)
Theorem check_matched_day_and_month_iff (now : datetime)
    (target_day target_month : Z) :
  valid_datetime now = true ->
  let last_day := days_in_month (year now) (month now) in
  exists b,
    check_matched_day_and_month now target_day target_month = Ok b
    /\ (b = true <->
        month now = target_month
        /\ ((target_day > last_day /\ day now = last_day)
            \/ (target_day <= last_day /\ day now = target_day)))
    /\ (month now <> target_month -> b = false).
Proof.
  intros Hv last_day.
  unfold check_matched_day_and_month, check_matched_day.
  rewrite (last_day_of_month_eq now Hv). simpl. fold last_day.
  exists ((if last_day <? target_day then day now =? last_day
           else day now =? target_day)
          && (month now =? target_month)).
  split_and!.
  - destruct (last_day <? target_day);
      [destruct (day now =? last_day) | destruct (day now =? target_day)];
      simpl; try reflexivity;
      destruct (month now =? target_month); reflexivity.
  - rewrite andb_true_iff, Z.eqb_eq.
    destruct (Z.ltb_spec last_day target_day); rewrite Z.eqb_eq; lia.
  - intros Hne. apply andb_false_iff. right. by apply Z.eqb_neq.
Qed.

Lemma check_matched_day_and_month_iff_witness :
  check_matched_day_and_month (mk_datetime 2023 2 28 6 0 0) 29 2 = Ok true.
Proof.
  destruct (check_matched_day_and_month_iff (mk_datetime 2023 2 28 6 0 0) 29 2)
    as (b & Hb & Hiff & _); [reflexivity|].
  rewrite Hb. f_equal. apply Hiff. simpl. split; [reflexivity|].
  left. split; [by vm_compute | reflexivity].
Defined.

(** X2: in every month a target day of at least 1 matches on exactly one
    day, the target itself or the last day of the month when the month is
    shorter; a target below 1 never matches. *)
Theorem check_matched_day_once (now : datetime) (target_day : Z) :
  valid_datetime now = true ->
  let last_day := days_in_month (year now) (month now) in
  (1 <= target_day ->
   check_matched_day now target_day
   = Ok (day now =? Z.min target_day last_day)
   /\ check_date_fields (year now) (month now) (Z.min target_day last_day)
      = true)
  /\ (target_day < 1 -> check_matched_day now target_day = Ok false).
Proof.
  intros Hv last_day.
  destruct (valid_datetime_date now Hv) as (Hy & Hm & Hd).
  pose proof (days_in_month_bounds (year now) (month now) Hm) as Hb.
  unfold check_matched_day. rewrite (last_day_of_month_eq now Hv).
  simpl. fold last_day in Hd, Hb |- *.
  split.
  - intros H1. split.
    + destruct (Z.ltb_spec last_day target_day).
      * rewrite Z.min_r by lia. by destruct (day now =? last_day).
      * rewrite Z.min_l by lia. by destruct (day now =? target_day).
    + apply check_date_fields_spec. lia.
  - intros H0. destruct (Z.ltb_spec last_day target_day); [lia|].
    destruct (Z.eqb_spec (day now) target_day); [lia | reflexivity].
Qed.

Lemma check_matched_day_once_witness :
  check_matched_day (mk_datetime 2023 4 30 0 0 0) 31 = Ok true
  /\ check_matched_day (mk_datetime 2023 4 29 0 0 0) 0 = Ok false.
Proof.
  split.
  - destruct (check_matched_day_once (mk_datetime 2023 4 30 0 0 0) 31)
      as [H _]; [reflexivity|].
    destruct H as [H _]; [lia|]. exact H.
  - destruct (check_matched_day_once (mk_datetime 2023 4 29 0 0 0) 0)
      as [_ H]; [reflexivity|]. apply H. lia.
Defined.

(** X3: [last_day_of_month] is idempotent on valid dates and never moves
    a date backwards. *)
Theorem last_day_of_month_idempotent (dt : datetime) :
  valid_datetime dt = true ->
  exists r,
    last_day_of_month dt = Ok r
    /\ last_day_of_month r = Ok r
    /\ day dt <= day r.
Proof.
  intros Hv. destruct (valid_datetime_date dt Hv) as (Hy & Hm & Hd).
  pose proof (days_in_month_bounds (year dt) (month dt) Hm) as Hb.
  eexists. split; [by apply last_day_of_month_eq|].
  split; [|simpl; lia].
  rewrite last_day_of_month_eq; [reflexivity|].
  unfold valid_datetime in *. simpl.
  apply andb_true_iff in Hv as [_ ->]. rewrite andb_true_r.
  apply check_date_fields_spec. lia.
Qed.

Lemma last_day_of_month_idempotent_witness :
  exists r, last_day_of_month (mk_datetime 2024 12 5 0 0 0) = Ok r
            /\ last_day_of_month r = Ok r.
Proof.
  destruct (last_day_of_month_idempotent (mk_datetime 2024 12 5 0 0 0))
    as (r & H1 & H2 & _); [reflexivity|]. eauto.
Defined.

(** ** The windows of the dispatcher *)

Lemma is_leap_not_consecutive (y : Z) :
  is_leap (y - 1) = true -> is_leap y = false.
Proof.
  unfold is_leap. rewrite andb_true_iff, Z.eqb_eq. intros [H4 _].
  apply andb_false_iff. left. apply Z.eqb_neq.
  Z.to_euclidean_division_equations. lia.
Qed.

Lemma ord_one_month_before_days (now : datetime) :
  valid_datetime now = true ->
  let s := one_month_before now in
  28 <= ymd_to_ord (year now) (month now) (day now)
        - ymd_to_ord (year s) (month s) (day s) <= 31.
Proof.
  intros Hv. destruct (valid_datetime_date now Hv) as (Hy & Hm & Hd).
  pose proof (days_in_month_bounds (year now) (month now) Hm) as Hb.
  unfold one_month_before. simpl.
  destruct (Z.eqb_spec (month now) 1) as [H1 | H1].
  - pose proof (month_end_ordinal (year now - 1) 12) as Hend.
    unfold first_of_next_month_ord in Hend. simpl in Hend.
    replace (year now - 1 + 1) with (year now) in Hend by lia.
    replace (days_in_month (year now - 1) 12) with 31 in * by reflexivity.
    rewrite H1 in *. unfold ymd_to_ord in *.
    replace (days_before_month (year now) 1) with 0 in * by reflexivity.
    lia.
  - pose proof (month_end_ordinal (year now) (month now - 1)) as Hend.
    pose proof (days_in_month_bounds (year now) (month now - 1)) as Hb'.
    unfold first_of_next_month_ord in Hend.
    destruct (Z.eqb_spec (month now - 1) 12); [lia|].
    replace (month now - 1 + 1) with (month now) in Hend by lia.
    unfold ymd_to_ord in *. lia.
Qed.

Lemma ord_one_year_before_days (now : datetime) :
  valid_datetime now = true ->
  let s := one_year_before now in
  365 <= ymd_to_ord (year now) (month now) (day now)
         - ymd_to_ord (year s) (month s) (day s) <= 366.
Proof.
  intros Hv. destruct (valid_datetime_date now Hv) as (Hy & Hm & Hd).
  unfold one_year_before. simpl. unfold ymd_to_ord.
  rewrite (days_before_year_prev (year now)).
  pose proof (is_leap_not_consecutive (year now)) as Hleap.
  revert Hd. unfold days_before_month, days_in_month.
  month_cases (month now); simpl;
    destruct (is_leap (year now - 1)); try rewrite Hleap by reflexivity;
    try destruct (is_leap (year now)); simpl; lia.
Qed.

(** X4: the window of a daily report lasts exactly one day, that of a
    monthly report between 28 and 31 days and that of a yearly report 365
    or 366 days, whatever the date of the dispatch. *)
Theorem window_lengths (now : datetime) :
  valid_datetime now = true -> 2 <= year now ->
  exists start_day start_month start_year,
    sub_relativedelta now (mk_relativedelta 0 0 1) = Ok start_day
    /\ sub_relativedelta now (mk_relativedelta 0 1 0) = Ok start_month
    /\ sub_relativedelta now (mk_relativedelta 1 0 0) = Ok start_year
    /\ total_seconds_between now start_day = 86400
    /\ 28 * 86400 <= total_seconds_between now start_month <= 31 * 86400
    /\ 365 * 86400 <= total_seconds_between now start_year <= 366 * 86400.
Proof.
  intros Hv Hy.
  exists (one_day_before now), (one_month_before now), (one_year_before now).
  split; [exact (sub_relativedelta_cadence now Daily Hv Hy)|].
  split; [exact (sub_relativedelta_cadence now Monthly Hv Hy)|].
  split; [exact (sub_relativedelta_cadence now Yearly Hv Hy)|].
  split; [exact (daily_window_seconds now Hv)|].
  pose proof (ord_one_month_before_days now Hv) as Hmonth.
  pose proof (ord_one_year_before_days now Hv) as Hyear.
  unfold total_seconds_between. simpl in *. lia.
Qed.

Lemma window_lengths_witness :
  exists start_month,
    sub_relativedelta (mk_datetime 2024 3 31 10 0 0) (mk_relativedelta 0 1 0)
    = Ok start_month
    /\ 28 * 86400
       <= total_seconds_between (mk_datetime 2024 3 31 10 0 0) start_month
       <= 31 * 86400.
Proof.
  destruct (window_lengths (mk_datetime 2024 3 31 10 0 0))
    as (sd & sm & sy & _ & Hm & _ & _ & Hlen & _);
    [reflexivity | simpl; lia |].
  exists sm. split; [exact Hm | exact Hlen].
Defined.

(** ** The validators and the resolver *)

(** X5: on every text of the shape "DD.MM" (possibly ending in a newline)
    [check_year_parameter] returns without raising; day and month are
    validated independently: the day is DD when it lies in 1..31 and 1
    otherwise, the month is MM when it lies in 1..12 and 1 otherwise. *)
Theorem check_year_parameter_values (a b d e : ascii) (rest : string) :
  is_digit a = true -> is_digit b = true ->
  is_digit d = true -> is_digit e = true -> at_dollar rest = true ->
  let dd := 10 * digit_value a + digit_value b in
  let mm := 10 * digit_value d + digit_value e in
  exists values,
    check_year_parameter
      (String a (String b (String "." (String d (String e rest)))))
    = Ok values
    /\ yv_day values = (if (1 <=? dd) && (dd <=? 31) then dd else 1)
    /\ yv_month values = (if (1 <=? mm) && (mm <=? 12) then mm else 1)
    /\ 1 <= yv_day values <= 31
    /\ 1 <= yv_month values <= 12.
Proof.
  intros Ha Hb Hd He Hr dd mm.
  unfold check_year_parameter.
  rewrite split_on_date by assumption.
  destruct (py_int_two_digits a b EmptyString Ha Hb eq_refl) as [Hday _].
  destruct (py_int_two_digits d e rest Hd He Hr) as [Hmonth _].
  eexists. simpl.
  rewrite (check_month_parameter_value _ _ Hmonth). simpl.
  rewrite (check_day_parameter_value _ _ Hday). simpl.
  fold dd mm. split; [reflexivity|]. simpl.
  split; [reflexivity|]. split; [reflexivity|].
  destruct (Z.leb_spec 1 dd), (Z.leb_spec dd 31), (Z.leb_spec 1 mm),
    (Z.leb_spec mm 12); simpl; lia.
Qed.

Lemma check_year_parameter_values_witness :
  exists values,
    check_year_parameter "31.13" = Ok values
    /\ yv_day values = 31 /\ yv_month values = 1.
Proof.
  destruct (check_year_parameter_values "3" "1" "1" "3" EmptyString)
    as (values & Hv & Hd & Hm & _); try reflexivity.
  exists values. split; [exact Hv|]. split; [exact Hd | exact Hm].
Defined.

Lemma split_on_absent (sep : ascii) (s : string) :
  mentions sep s = false -> split_on sep s = [s].
Proof.
  induction s as [|c s IH]; simpl; [done|].
  intros [Hc Hs]%orb_false_iff. rewrite Hc, (IH Hs). reflexivity.
Qed.

(** X6: a text without a dot has no second part: [check_year_parameter]
    raises [IndexError] on it, whatever else it holds. *)
Theorem check_year_parameter_no_dot (day_month : string) :
  mentions "." day_month = false ->
  check_year_parameter day_month = Raise IndexError.
Proof.
  intros H. unfold check_year_parameter.
  by rewrite (split_on_absent _ _ H).
Qed.

Lemma check_year_parameter_no_dot_witness :
  check_year_parameter "3112" = Raise IndexError.
Proof. apply check_year_parameter_no_dot. reflexivity. Defined.

Lemma clamp_bounds (n hi : Z) :
  1 <= hi -> 1 <= (if (1 <=? n) && (n <=? hi) then n else 1) <= hi.
Proof.
  intros Hhi. destruct (Z.leb_spec 1 n), (Z.leb_spec n hi); simpl; lia.
Qed.

(** X7: every target in a descriptor returned by
    [check_cost_calc_requested] is in range: the monthly target lies in
    1..12 (it goes through [check_month_parameter]), the day of the yearly
    target in 1..31 and its month in 1..12. *)
Theorem requested_targets_in_range (settings : gmap string pyval)
    (r : requested) :
  check_cost_calc_requested settings = Ok r ->
  (forall m, cost_month r = Some m -> 1 <= m <= 12)
  /\ (forall y, cost_year r = Some y ->
        1 <= yv_day y <= 31 /\ 1 <= yv_month y <= 12).
Proof.
  rewrite check_cost_calc_requested_unfold.
  destruct (settings !! "cost_calc_day") as [vd|]; simpl;
    (destruct (settings !! "cost_calc_month") as [[| | | |sm]|]; simpl;
     try discriminate;
     [destruct (DAY_OF_MONTH_SCHEDULE_MATCH sm) eqn:Hm;
      [destruct (check_month_parameter_matched sm Hm) as (n & _ & _ & ->)|]|];
     simpl;
     (destruct (settings !! "cost_calc_year") as [[| | | |sy]|]; simpl;
      try discriminate;
      [destruct (DATE_OF_YEAR_SCHEDULE_MATCH sy) eqn:Hy;
       [destruct (check_year_parameter_matched sy Hy) as (dd & mm & ->)|]|];
      simpl));
    intros [= <-]; simpl; split; intros ? [= <-]; simpl;
    try split; apply clamp_bounds; lia.
Qed.

Lemma requested_targets_in_range_witness :
  check_cost_calc_requested {[ "cost_calc_year" := VStr "40.05" ]}
  = Ok (mk_requested true false None (Some (mk_year_values 1 5)))
  /\ 1 <= yv_day (mk_year_values 1 5) <= 31
  /\ 1 <= yv_month (mk_year_values 1 5) <= 12.
Proof.
  split; [reflexivity|].
  exact (proj2 (requested_targets_in_range
                  {[ "cost_calc_year" := VStr "40.05" ]}
                  (mk_requested true false None (Some (mk_year_values 1 5)))
                  eq_refl) _ eq_refl).
Defined.

(** X8: the resolver reads three keys only: adding or changing any other
    entry of the settings leaves its result as it was. *)
Theorem requested_ignores_other_keys (settings : gmap string pyval)
    (k : string) (v : pyval) :
  k <> "cost_calc_day"%string -> k <> "cost_calc_month"%string ->
  k <> "cost_calc_year"%string ->
  check_cost_calc_requested (<[k := v]> settings)
  = check_cost_calc_requested settings.
Proof.
  intros Hd Hm Hy. rewrite !check_cost_calc_requested_unfold.
  by rewrite !lookup_insert_ne.
Qed.

Lemma requested_ignores_other_keys_witness :
  check_cost_calc_requested (<["update_time" := VInt 60]> settings_day_only)
  = check_cost_calc_requested settings_day_only.
Proof. by apply requested_ignores_other_keys. Defined.

(** X9: the daily cadence of a returned descriptor is enabled exactly when
    the settings hold a truthy "cost_calc_day"; an absent key or a falsy
    value (False, 0, 0.0, "", None) leaves it disabled. *)
Theorem requested_daily_iff (settings : gmap string pyval) (r : requested) :
  check_cost_calc_requested settings = Ok r ->
  (cost_day r = true
   <-> exists v, settings !! "cost_calc_day" = Some v /\ truthy v = true).
Proof.
  rewrite check_cost_calc_requested_unfold.
  destruct (settings !! "cost_calc_day") as [vd|]; simpl;
    (destruct (settings !! "cost_calc_month") as [[| | | |sm]|]; simpl;
     try discriminate;
     [destruct (DAY_OF_MONTH_SCHEDULE_MATCH sm);
      [destruct (check_month_parameter sm); simpl; try discriminate|]|];
     simpl;
     (destruct (settings !! "cost_calc_year") as [[| | | |sy]|]; simpl;
      try discriminate;
      [destruct (DATE_OF_YEAR_SCHEDULE_MATCH sy);
       [destruct (check_year_parameter sy); simpl; try discriminate|]|];
      simpl));
    intros [= <-]; simpl; split;
    solve [ intros ?; eauto
          | intros (? & [= <-] & ?); done
          | intros (? & [=] & ?)
          | done ].
Qed.

Lemma requested_daily_iff_witness :
  check_cost_calc_requested settings_day_only
  = Ok (mk_requested true true None None)
  /\ exists v, settings_day_only !! "cost_calc_day" = Some v
               /\ truthy v = true.
Proof.
  split; [reflexivity|].
  exact (proj1 (requested_daily_iff settings_day_only
                  (mk_requested true true None None) eq_refl) eq_refl).
Defined.

(** ** The configuration readers *)

(** X10: with a configuration file that is an object of objects of
    scalar values, in which the start time is absent or a string,
    [check_cost_calc_request_time] returns without raising and
    leaves the state as it is; it returns the configured text when the
    pattern accepts it and "00:00" otherwise, so what it returns is always
    accepted by the pattern. *)
Theorem request_time_from_config (e : env) (w : world)
    (data : gmap string (gmap string pyval)) :
  config e = ConfigData data ->
  let entry := general ← data !! "general";
               general !! "cost_calc_request_time" in
  string_or_absent entry ->
  exists t,
    check_cost_calc_request_time e w = (Ok t, w)
    /\ TIME_OF_DAY_SCHEDULE_MATCH t = true
    /\ t = match entry with
           | Some (VStr s) =>
               if TIME_OF_DAY_SCHEDULE_MATCH s then s else "00:00"%string
           | _ => "00:00"%string
           end.
Proof.
  intros Hc entry Hentry. subst entry.
  unfold check_cost_calc_request_time, try_except, load_config, mbind at 1 2,
    M_bind, lift, getitem, re_search, raise, mret, M_ret.
  rewrite Hc, contains_lookup.
  destruct (data !! "general") as [general|]; simpl in *;
    [|eexists; by split_and!].
  rewrite contains_lookup.
  destruct (general !! "cost_calc_request_time") as [[| | | |s]|];
    simpl in *; try done; [|eexists; by split_and!].
  destruct (TIME_OF_DAY_SCHEDULE_MATCH s) eqn:Hs; eexists; by split_and!.
Qed.

Lemma request_time_from_config_witness :
  check_cost_calc_request_time env_request_time initial_world
  = (Ok "06:30"%string, initial_world).
Proof.
  destruct (request_time_from_config env_request_time initial_world _ eq_refl)
    as (t & Hrun & _ & Ht); [exact I|].
  rewrite Hrun, Ht. reflexivity.
Defined.

(** X11: the start-time reader catches [FileNotFoundError] only: a file
    that is not JSON makes it raise [ValueError], and a start time that is
    not a string makes it raise [TypeError]; the state is left as it is. *)
Theorem request_time_errors (e : env) (w : world) :
  config e = ConfigNotJson
  \/ (exists data general v,
        config e = ConfigData data
        /\ data !! "general" = Some general
        /\ general !! "cost_calc_request_time" = Some v
        /\ forall s, v <> VStr s) ->
  check_cost_calc_request_time e w
  = (Raise (match config e with
            | ConfigNotJson => ValueError
            | _ => TypeError
            end), w).
Proof.
  unfold check_cost_calc_request_time, try_except, load_config, mbind at 1 2,
    M_bind, lift, getitem, re_search, raise, mret, M_ret.
  intros [Hc | (data & general & v & Hc & Hg & Hv & Hs)]; rewrite Hc;
    [reflexivity|].
  rewrite contains_lookup, Hg. simpl. rewrite contains_lookup, Hv. simpl.
  destruct v as [| | | |s]; try reflexivity. by destruct (Hs s).
Qed.

Lemma request_time_errors_witness :
  check_cost_calc_request_time
    (mk_env ConfigNotJson decimal_of_string (fun _ => [])
            (fun _ => example_now)) initial_world
  = (Raise ValueError, initial_world).
Proof.
  apply (request_time_errors
           (mk_env ConfigNotJson decimal_of_string (fun _ => [])
                   (fun _ => example_now)) initial_world).
  left. reflexivity.
Defined.

Lemma replace_char_idempotent (old new : ascii) (s : string) :
  replace_char old new (replace_char old new s) = replace_char old new s.
Proof.
  induction s as [|c rest IH]; [reflexivity|]. simpl. rewrite IH. f_equal.
  destruct (Ascii.eqb_spec c old) as [->|Hc].
  - destruct (Ascii.eqb_spec new old); reflexivity.
  - apply Ascii.eqb_neq in Hc. by rewrite Hc.
Qed.

(** X12: a price given as text may use a decimal comma.  Of two
    configuration files that differ only in the text of the price, written
    with commas in the one and with points in their place in the other,
    [check_cost_config] gives the same result, be it a price or an
    exception, and the same state. *)
Theorem price_comma_as_point (e : env) (w : world)
    (data : gmap string (gmap string pyval)) (general : gmap string pyval)
    (s : string) :
  data !! "general" = Some general ->
  general !! "price_kwh" = Some (VStr s) ->
  let with_points :=
    <["general" := <["price_kwh" := VStr (replace_char "," "." s)]> general]>
      data in
  check_cost_config (with_config (ConfigData data) e) w
  = check_cost_config (with_config (ConfigData with_points) e) w.
Proof.
  intros Hg Hp with_points. subst with_points.
  unfold check_cost_config, try_except, load_config, mbind, M_bind, lift,
    getitem, py_float, raise, mret, M_ret, with_config.
  simpl. rewrite !contains_lookup, Hg, lookup_insert. simpl.
  rewrite !contains_lookup, Hp, lookup_insert. simpl.
  by rewrite replace_char_idempotent.
Qed.

Lemma price_comma_as_point_witness :
  check_cost_config env_comma_price initial_world
  = check_cost_config env_point_price initial_world.
Proof.
  exact (price_comma_as_point env_comma_price initial_world
           {[ "general" := {[ "price_kwh" := VStr "0,2874" ]} ]}
           {[ "price_kwh" := VStr "0,2874" ]} "0,2874" eq_refl eq_refl).
Defined.

(** X13: with a configuration file that is an object of objects of
    scalar values and has no price, the default is not returned: [check_cost_config] raises [UnboundLocalError]; a price that
    is neither a float nor a string (an integer, a boolean, null) makes it
    raise [AttributeError].  The state is left as it is. *)
Theorem price_missing_or_mistyped (e : env) (w : world)
    (data : gmap string (gmap string pyval)) :
  config e = ConfigData data ->
  let entry := general ← data !! "general"; general !! "price_kwh" in
  match entry with
  | None => check_cost_config e w = (Raise UnboundLocalError, w)
  | Some (VFloat _) | Some (VStr _) => True
  | Some _ => check_cost_config e w = (Raise AttributeError, w)
  end.
Proof.
  intros Hc entry. subst entry.
  assert (Hrun : check_cost_config e w
                 = match data !! "general" with
                   | Some general =>
                       match general !! "price_kwh" with
                       | Some (VFloat q) => (Ok (py_round q 3), w)
                       | Some (VStr s) =>
                           check_cost_config e w
                       | Some _ => (Raise AttributeError, w)
                       | None => (Raise UnboundLocalError, w)
                       end
                   | None => (Raise UnboundLocalError, w)
                   end).
  { unfold check_cost_config, try_except, load_config, mbind, M_bind,
      lift, getitem, py_float, raise, mret, M_ret.
    rewrite Hc, contains_lookup.
    destruct (data !! "general") as [general|]; simpl; [|reflexivity].
    rewrite contains_lookup.
    by destruct (general !! "price_kwh") as [[| | | |s]|]. }
  rewrite Hrun. clear Hrun.
  destruct (data !! "general") as [general|]; simpl; [|reflexivity].
  by destruct (general !! "price_kwh") as [[| | | |s]|].
Qed.

Lemma price_missing_or_mistyped_witness :
  check_cost_config env_request_time initial_world
  = (Raise UnboundLocalError, initial_world).
Proof.
  exact (price_missing_or_mistyped env_request_time initial_world _ eq_refl).
Defined.

(** ** What an aggregation touches *)

Lemma on_file_not_found_frame {A} (fallback : A) (w : world) :
  let w' := snd (on_file_not_found fallback w) in
  queries w' = queries w /\ clock_reads w' = clock_reads w.
Proof.
  unfold on_file_not_found, get_flag, getitem, mbind, M_bind.
  by destruct (configuration_failed_message_send w !! _) as [[]|].
Qed.

Lemma on_value_error_frame {A} (fallback : A) (w : world) :
  let w' := snd (on_value_error fallback w) in
  queries w' = queries w /\ clock_reads w' = clock_reads w.
Proof.
  unfold on_value_error, get_flag, getitem, mbind, M_bind.
  by destruct (configuration_failed_message_send w !! _) as [[]|].
Qed.

(** The price lookup sends no query and does not read the clock. *)
Lemma check_cost_config_frame (e : env) (w : world) :
  let w' := snd (check_cost_config e w) in
  queries w' = queries w /\ clock_reads w' = clock_reads w.
Proof.
  pose proof (on_file_not_found_frame (3 # 10)%Q w) as Hfnf.
  pose proof (on_value_error_frame (3 # 10)%Q w) as Hve.
  unfold check_cost_config, try_except, load_config, mbind, M_bind, lift,
    getitem, py_float, raise, mret, M_ret.
  destruct (config e) as [| |data]; simpl; [done | done |].
  rewrite contains_lookup.
  destruct (data !! "general") as [general|]; simpl; [|done].
  rewrite contains_lookup.
  destruct (general !! "price_kwh") as [[| | | |s]|]; simpl; try done.
  destruct (float_of_string e (replace_char "," "." s)); simpl; done.
Qed.

Lemma extends_by_refl (n : nat) (device_name : string) (now : datetime)
    (w : world) :
  extends_by n device_name now w w.
Proof.
  split; [done|]. exists [], []. rewrite !app_nil_r.
  split_and!; simpl; try done; lia.
Qed.

Lemma extends_by_trans (n m : nat) (device_name : string) (now : datetime)
    (w1 w2 w3 : world) :
  extends_by n device_name now w1 w2 ->
  extends_by m device_name now w2 w3 ->
  extends_by (n + m) device_name now w1 w3.
Proof.
  intros (Hc1 & qs1 & rs1 & Hq1 & Hl1 & Hn1 & Hr1 & Hf1)
         (Hc2 & qs2 & rs2 & Hq2 & Hl2 & Hn2 & Hr2 & Hf2).
  split; [congruence|]. exists (qs1 ++ qs2), (rs1 ++ rs2).
  rewrite Hq2, Hq1, Hl2, Hl1, <- !app_assoc, !length_app.
  split_and!; try done; try lia. by apply Forall_app.
Qed.

(** Whatever the inputs and the outcome, a run of [cost_calc] sends at
    most one query, for a window that ends at the timestamp it was given,
    writes at most one record, and only after a query, keeps what the sink
    and the list of queries held, and does not read the clock. *)
Lemma cost_calc_frame (e : env) (device_name : string)
    (settings : gmap string pyval) (now : datetime) (delta : relativedelta)
    (w w' : world) (r : result unit) :
  cost_calc e device_name settings now delta w = (r, w') ->
  extends_by 1 device_name now w w'.
Proof.
  unfold cost_calc, mbind at 1, M_bind at 1, lift at 1.
  destruct (sub_relativedelta now delta) as [start|ex];
    [|intros [= <- <-]; apply extends_by_refl].
  unfold mbind at 1, M_bind at 1, do_fetch.
  set (q := mk_query device_name (strftime start) (strftime now)).
  set (ok := List.filter fetch_success (fetch_measurements e q)).
  set (bad := List.filter _ (fetch_measurements e q)).
  unfold mbind at 1, M_bind at 1.
  pose proof (check_cost_config_cost_log e (append_query q w)) as Hlog.
  pose proof (check_cost_config_frame e (append_query q w)) as [Hqs Hclock].
  destruct (check_cost_config e (append_query q w)) as [[price|ex] w1];
    simpl in Hlog, Hqs, Hclock.
  2: { intros [= <- <-]. split; [done|]. exists [q], [].
       rewrite app_nil_r. split_and!; simpl; try done; try lia.
       by repeat constructor. }
  assert (Hnone : extends_by 1 device_name now w w1).
  { split; [done|]. exists [q], [].
    rewrite app_nil_r. split_and!; simpl; try done; try lia.
    by repeat constructor. }
  assert (Hone : forall key data,
             extends_by 1 device_name now w (append_cost key data w1)).
  { intros key data. split; [done|]. exists [q], [(key, data)].
    split_and!; simpl; try done; try lia; [by rewrite Hlog|].
    by repeat constructor. }
  destruct (length ok + length bad =? 0)%nat; [by intros [= <- <-]|].
  unfold mbind at 1, M_bind at 1, lift at 1.
  destruct (getitem settings "update_time" ≫= as_number) as [u|ex];
    [|by intros [= <- <-]].
  unfold mbind at 1, M_bind at 1, lift at 1.
  destruct (truediv _ u) as [max_values|ex]; [|by intros [= <- <-]].
  unfold mbind at 1, M_bind at 1, lift at 1.
  destruct (truediv (len bad * 100) _) as [rate_one|ex];
    [|by intros [= <- <-]].
  unfold mbind at 1, M_bind at 1, lift at 1.
  destruct (truediv _ max_values) as [rate_two|ex]; [|by intros [= <- <-]].
  unfold cost_logging, mret, M_ret.
  destruct (days delta =? 1);
    [|destruct (months delta =? 1); [|destruct (years delta =? 1)]];
    intros [= <- <-]; first [apply Hone | exact Hnone].
Qed.

(** X14: whatever the inputs and the outcome, a call of [cost_calc] sends
    at most one query to the store, for the device and for a window that
    ends at the timestamp it was given, writes at most one record and none
    without a query, keeps all earlier queries and records, and does not
    read the clock. *)
Theorem cost_calc_touches (e : env) (device_name : string)
    (settings : gmap string pyval) (now : datetime) (delta : relativedelta)
    (w : world) :
  extends_by 1 device_name now w
    (snd (cost_calc e device_name settings now delta w)).
Proof.
  destruct (cost_calc e device_name settings now delta w) as [r w'] eqn:Hrun.
  exact (cost_calc_frame e device_name settings now delta w w' r Hrun).
Qed.

Lemma rate_one_bounds (failed succeeded : nat) :
  let rate := (100 * inject_Z (Z.of_nat failed)
               / (inject_Z (Z.of_nat succeeded) + inject_Z (Z.of_nat failed)))%Q
  in (0 <= rate <= 100)%Q.
Proof.
  intros rate. subst rate. rewrite <- inject_Z_plus.
  set (a := Z.of_nat failed). set (b := Z.of_nat succeeded).
  assert (Ha : 0 <= a) by (unfold a; lia).
  assert (Hb : 0 <= b) by (unfold b; lia).
  destruct (Z.eq_dec (b + a) 0) as [H0 | Hne].
  - rewrite H0. unfold Qdiv. change (/ inject_Z 0)%Q with 0%Q.
    rewrite Qmult_0_r. split; [apply Qle_refl | discriminate].
  - assert (Hpos : (0 < inject_Z (b + a))%Q).
    { change 0%Q with (inject_Z 0). rewrite <- Zlt_Qlt. lia. }
    assert (Hqa : (0 <= inject_Z a)%Q).
    { change 0%Q with (inject_Z 0). by rewrite <- Zle_Qle. }
    assert (Hqab : (inject_Z a <= inject_Z (b + a))%Q).
    { rewrite <- Zle_Qle. lia. }
    split.
    + apply Qle_shift_div_l; [exact Hpos|]. lra.
    + apply Qle_shift_div_r; [exact Hpos|]. lra.
Qed.

(** X15: in every record that a call of [cost_calc] writes, the first
    error rate (failed samples among the fetched ones) lies between 0 and
    100. *)
Theorem error_rate_one_is_a_percentage (e : env) (device_name : string)
    (settings : gmap string pyval) (now : datetime) (delta : relativedelta)
    (w w' : world) (r : result unit) (key : string) (data : cost_data) :
  cost_calc e device_name settings now delta w = (r, w') ->
  cost_log w' = cost_log w ++ [(key, data)] ->
  (0 <= error_rate_one data <= 100)%Q.
Proof.
  intros Hrun Hlog.
  destruct (cost_calc_record_sound e device_name settings now delta w w' r
              Hrun)
    as [Hsame | (start & suffix & data' & u & _ & _ & _ & Hlog' & _ & Hrec)].
  - rewrite Hsame in Hlog. apply (f_equal length) in Hlog.
    rewrite length_app in Hlog. simpl in Hlog. lia.
  - rewrite Hlog in Hlog'. apply app_inv_head in Hlog'.
    injection Hlog' as _ <-.
    cbv zeta in Hrec. destruct Hrec as (_ & _ & _ & _ & _ & Hone & _).
    rewrite Hone. apply rate_one_bounds.
Qed.

Lemma error_rate_one_is_a_percentage_witness :
  (0 <= error_rate_one
          (mk_cost_data "2024-03-30 10:00:00" "2024-03-31 10:00:00"
                        8 (12 # 5) (3 # 10) 20 (895 # 9)) <= 100)%Q.
Proof.
  apply (error_rate_one_is_a_percentage env_scenario "dev" settings_minute
           example_now (cadence_delta Daily) initial_world _ _ "dev_day"
           _ (surjective_pairing _)).
  reflexivity.
Defined.

(** X16: the update interval is read only when the window has samples.
    Then, with a price lookup that returns, settings without
    "update_time" make [cost_calc] raise [KeyError], a text value makes it
    raise [TypeError] and a zero makes it raise [ZeroDivisionError]; in
    each case the store was queried and no record is written. *)
Theorem cost_calc_update_time_errors (e : env) (device_name : string)
    (settings : gmap string pyval) (now : datetime) (delta : relativedelta)
    (w : world) (start : datetime) (p : Q) :
  sub_relativedelta now delta = Ok start ->
  price_is e p ->
  let q := mk_query device_name (strftime start) (strftime now) in
  fetch_measurements e q <> [] ->
  match settings !! "update_time" with
  | None =>
      cost_calc e device_name settings now delta w
      = (Raise KeyError, append_query q w)
  | Some (VStr _) | Some VNone =>
      cost_calc e device_name settings now delta w
      = (Raise TypeError, append_query q w)
  | Some v =>
      (forall u, as_number v = Ok u -> (u == 0)%Q ->
       cost_calc e device_name settings now delta w
       = (Raise ZeroDivisionError, append_query q w))
  end.
Proof.
  intros Hstart Hprice q Hne.
  assert (Hlen : (length (List.filter fetch_success (fetch_measurements e q))
                  + length (List.filter (fun m => negb (fetch_success m))
                              (fetch_measurements e q)) <> 0)%nat).
  { rewrite partition_length. by destruct (fetch_measurements e q). }
  assert (Hraise : forall ex,
             (getitem settings "update_time" ≫= as_number) = Raise ex ->
             cost_calc e device_name settings now delta w
             = (Raise ex, append_query q w)).
  { intros ex Hex. unfold cost_calc, mbind at 1 2 3, M_bind, lift, do_fetch.
    rewrite Hstart. fold q. rewrite (Hprice _).
    apply Nat.eqb_neq in Hlen. rewrite Hlen.
    unfold mbind at 1, M_bind. by rewrite Hex. }
  unfold getitem in Hraise.
  destruct (settings !! "update_time") as [[| | | |s]|] eqn:Hv;
    try (by apply Hraise);
    intros u Hu Hu0;
    by apply (cost_calc_zero_update_time e device_name settings now delta w
                start p _ u Hstart Hprice Hlen Hv Hu Hu0).
Qed.

Lemma cost_calc_update_time_errors_witness :
  cost_calc env_scenario "dev" settings_day_only example_now
            (cadence_delta Daily) initial_world
  = (Raise KeyError,
     append_query (window_query "dev" example_now Daily) initial_world).
Proof.
  apply (cost_calc_update_time_errors env_scenario "dev" settings_day_only
           example_now (cadence_delta Daily) initial_world
           (window_start example_now Daily) (3 # 10));
    [ reflexivity | by apply price_is_030 | done ].
Defined.

(** X20: an integer update interval that is too large for a float makes
    the division of line 140 raise [OverflowError]: with samples in the
    window and a price lookup that returns, [cost_calc] raises it after
    querying the store and writes no record. *)
Theorem cost_calc_update_time_too_large (e : env) (device_name : string)
    (settings : gmap string pyval) (now : datetime) (delta : relativedelta)
    (w : world) (start : datetime) (p : Q) (z : Z) :
  sub_relativedelta now delta = Ok start ->
  price_is e p ->
  let q := mk_query device_name (strftime start) (strftime now) in
  fetch_measurements e q <> [] ->
  settings !! "update_time" = Some (VInt z) ->
  FLOAT_INT_BOUND <= Z.abs z ->
  cost_calc e device_name settings now delta w
  = (Raise OverflowError, append_query q w).
Proof.
  intros Hstart Hprice q Hne Hv Hbig.
  assert (Hlen : (length (List.filter fetch_success (fetch_measurements e q))
                  + length (List.filter (fun m => negb (fetch_success m))
                              (fetch_measurements e q)) <> 0)%nat).
  { rewrite partition_length. by destruct (fetch_measurements e q). }
  assert (Hex : (getitem settings "update_time" ≫= as_number)
                = Raise OverflowError).
  { unfold getitem. rewrite Hv. unfold mbind, result_bind, as_number.
    apply Z.ltb_ge in Hbig. by rewrite Hbig. }
  unfold cost_calc, mbind at 1 2 3, M_bind, lift, do_fetch.
  rewrite Hstart. fold q. rewrite (Hprice _).
  apply Nat.eqb_neq in Hlen. rewrite Hlen.
  unfold mbind at 1, M_bind. by rewrite Hex.
Qed.

Lemma cost_calc_update_time_too_large_witness :
  cost_calc env_scenario "dev" settings_huge_interval example_now
            (cadence_delta Daily) initial_world
  = (Raise OverflowError,
     append_query (window_query "dev" example_now Daily) initial_world).
Proof.
  apply (cost_calc_update_time_too_large env_scenario "dev"
           settings_huge_interval example_now (cadence_delta Daily)
           initial_world (window_start example_now Daily) (3 # 10)
           (10 ^ 400));
    [ reflexivity | by apply price_is_030 | done | reflexivity
    | by vm_compute ].
Defined.

(** X17: the key of the record is chosen by the first of the days, months
    and years of the window length that equals 1.  A call with any other
    length (a week, two months), for which the window start can be
    computed and differs from the end, the price lookup returns, the store
    has samples and the update interval is a nonzero number, goes through
    every step and returns normally after querying the store, but writes
    no record. *)
Theorem cost_calc_other_window_writes_nothing (e : env)
    (device_name : string) (settings : gmap string pyval) (now : datetime)
    (delta : relativedelta) (w : world) (start : datetime) (p : Q)
    (v : pyval) (u : Q) :
  sub_relativedelta now delta = Ok start ->
  price_is e p ->
  let q := mk_query device_name (strftime start) (strftime now) in
  fetch_measurements e q <> [] ->
  settings !! "update_time" = Some v ->
  as_number v = Ok u ->
  ~ (u == 0)%Q ->
  total_seconds_between now start <> 0 ->
  days delta <> 1 -> months delta <> 1 -> years delta <> 1 ->
  cost_calc e device_name settings now delta w = (Ok tt, append_query q w).
Proof.
  intros Hstart Hprice q Hne Hv Hu Hu0 Hsec Hd Hm Hy.
  destruct (cost_calc_nonempty e device_name settings now delta w start p v u
              Hstart Hprice)
    as (data & Hrun & _); try done.
  - rewrite partition_length. fold q. by destruct (fetch_measurements e q).
  - rewrite Hrun. unfold cadence_suffix.
    destruct (Z.eqb_spec (days delta) 1); [done|].
    destruct (Z.eqb_spec (months delta) 1); [done|].
    destruct (Z.eqb_spec (years delta) 1); [done|]. reflexivity.
Qed.

Lemma cost_calc_other_window_writes_nothing_witness :
  cost_calc env_scenario "dev" settings_minute
            (mk_datetime 2024 3 3 10 0 0) (mk_relativedelta 0 0 7)
            initial_world
  = (Ok tt,
     append_query (mk_query "dev" "2024-02-25 10:00:00" "2024-03-03 10:00:00")
                  initial_world).
Proof.
  apply (cost_calc_other_window_writes_nothing env_scenario "dev"
           settings_minute (mk_datetime 2024 3 3 10 0 0)
           (mk_relativedelta 0 0 7) initial_world
           (mk_datetime 2024 2 25 10 0 0) (3 # 10) (VInt 60) 60);
    try done; by apply price_is_030.
Defined.

(** ** What a dispatch touches *)

Lemma frames_ret {A} (device_name : string) (now : datetime) (a : A) :
  frames 0 device_name now (mret a : M A).
Proof. intros w r w' [= <- <-]. apply extends_by_refl. Qed.

Lemma frames_lift {A} (device_name : string) (now : datetime)
    (x : result A) :
  frames 0 device_name now (lift x).
Proof. intros w r w' [= <- <-]. apply extends_by_refl. Qed.

Lemma frames_bind {A B} (n k : nat) (device_name : string) (now : datetime)
    (m : M A) (f : A -> M B) :
  frames n device_name now m ->
  (forall a, frames k device_name now (f a)) ->
  frames (n + k) device_name now (m ≫= f).
Proof.
  intros Hm Hf w r w'. unfold mbind, M_bind.
  destruct (m w) as [[a|ex] w1] eqn:Hrun.
  - intros Hk. eapply extends_by_trans; [by eapply Hm | by eapply Hf].
  - intros [= <- <-]. replace (n + k)%nat with (n + k + 0)%nat by lia.
    eapply extends_by_trans; [|apply extends_by_refl].
    replace (n + k)%nat with (n + k)%nat by lia.
    eapply extends_by_trans; [by eapply Hm | apply extends_by_refl].
Qed.

Lemma frames_weaken {A} (n n' : nat) (device_name : string)
    (now : datetime) (m : M A) :
  (n <= n')%nat -> frames n device_name now m -> frames n' device_name now m.
Proof.
  intros Hle Hm w r w' Hrun.
  destruct (Hm w r w' Hrun) as (Hc & qs & rs & Hq & Hl & Hn & Hr & Hf).
  split; [done|]. exists qs, rs. split_and!; try done. lia.
Qed.

Lemma frames_cost_calc (e : env) (device_name : string)
    (settings : gmap string pyval) (now : datetime) (delta : relativedelta) :
  frames 1 device_name now (cost_calc e device_name settings now delta).
Proof. intros w r w'. apply cost_calc_frame. Qed.

(** X18: whatever the configuration, the settings, the descriptor and the
    outcome, a call of [cost_calc_handler] reads the clock exactly once,
    sends at most three queries, all for the device and for windows that
    end at that one reading, writes at most one record per query, and
    keeps all earlier queries and records. *)
Theorem cost_calc_handler_touches (e : env) (device_name : string)
    (settings : gmap string pyval) (req : requested) (w : world) :
  let now := utc_clock e (clock_reads w) in
  let w' := snd (cost_calc_handler e device_name settings req w) in
  clock_reads w' = S (clock_reads w)
  /\ extends_by 3 device_name now (tick_clock w) w'.
Proof.
  intros now w'. subst w'.
  pose (rest :=
          ((if cost_day req then
              cost_calc e device_name settings now (mk_relativedelta 0 0 1)
            else mret tt);;
           match cost_month req with
           | Some target_day =>
               matched ← lift (check_matched_day now target_day);
               if (matched : bool) then
                 cost_calc e device_name settings now
                           (mk_relativedelta 0 1 0)
               else mret tt
           | None => mret tt
           end;;
           match cost_year req with
           | Some target =>
               matched ← lift (check_matched_day_and_month now
                                 (yv_day target) (yv_month target));
               if (matched : bool) then
                 cost_calc e device_name settings now
                           (mk_relativedelta 1 0 0)
               else mret tt
           | None => mret tt
           end) : M unit).
  assert (Hrest : frames 3 device_name now rest).
  { apply (frames_bind 1 2).
    { destruct (cost_day req);
        [apply frames_cost_calc
        | apply (frames_weaken 0); [lia | apply frames_ret]]. }
    intros _. apply (frames_bind 1 1).
    { destruct (cost_month req) as [t|];
        [|apply (frames_weaken 0); [lia | apply frames_ret]].
      apply (frames_bind 0 1); [apply frames_lift|].
      intros [|]; [apply frames_cost_calc
                  | apply (frames_weaken 0); [lia | apply frames_ret]]. }
    intros _. destruct (cost_year req) as [yv|];
      [|apply (frames_weaken 0); [lia | apply frames_ret]].
    apply (frames_bind 0 1); [apply frames_lift|].
    intros [|]; [apply frames_cost_calc
                | apply (frames_weaken 0); [lia | apply frames_ret]]. }
  assert (Heq : cost_calc_handler e device_name settings req w
                = rest (tick_clock w)) by reflexivity.
  rewrite Heq. clearbody rest.
  destruct (rest (tick_clock w)) as [r w1] eqn:Hrun.
  pose proof (Hrest _ _ _ Hrun) as Hext. simpl.
  split; [|exact Hext]. destruct Hext as [Hclock _]. by rewrite Hclock.
Qed.

(** X19: a device for which the resolver enables nothing produces nothing:
    when [check_cost_calc_requested] returns a descriptor whose
    [start_schedule_task] is false, [cost_calc_handler] with that
    descriptor only reads the clock, whatever the configuration and the
    store. *)
Theorem nothing_requested_nothing_done (e : env) (device_name : string)
    (settings : gmap string pyval) (req : requested) (w : world) :
  check_cost_calc_requested settings = Ok req ->
  start_schedule_task req = false ->
  cost_calc_handler e device_name settings req w = (Ok tt, tick_clock w).
Proof.
  rewrite check_cost_calc_requested_unfold.
  destruct (settings !! "cost_calc_day") as [vd|]; simpl;
    (destruct (settings !! "cost_calc_month") as [[| | | |sm]|]; simpl;
     try discriminate;
     [destruct (DAY_OF_MONTH_SCHEDULE_MATCH sm);
      [destruct (check_month_parameter sm); simpl; try discriminate|]|];
     simpl;
     (destruct (settings !! "cost_calc_year") as [[| | | |sy]|]; simpl;
      try discriminate;
      [destruct (DATE_OF_YEAR_SCHEDULE_MATCH sy);
       [destruct (check_year_parameter sy); simpl; try discriminate|]|];
      simpl));
    intros [= <-]; simpl; try discriminate;
    intros Hfalse; try rewrite Hfalse; reflexivity.
Qed.

Lemma nothing_requested_nothing_done_witness :
  cost_calc_handler env_no_config "dev" settings_minute
    (mk_requested false false None None) initial_world
  = (Ok tt, tick_clock initial_world).
Proof.
  by apply (nothing_requested_nothing_done env_no_config "dev"
              settings_minute).
Defined.
